(** * Intelligent AI Hub front end: hub creation, hub cards, session guard, chat page

    A shallow embedding of the browser-side code of the repository:

    - [CreateHubModal] (drop zone [onDrop], [formatFileSize]),
    - [HubCard] ([handleSync]) and [DashboardPage] ([handleCreateHub], the
      session guard effect),
    - [ChatPage] (session guard, message persistence effects, [switchHub],
      [loadHub], [unloadHub], [clearChat], [sendMessage]),
    - the other handlers of [HubCard] ([checkLoadedStatus], [handleLoadUnload],
      [fetchHubDetails], [handleShowFiles], [handleDelete]), the statistics of
      [DashboardPage] ([calculateStats], [fetchHubs], [fetchStats],
      [handleRefresh]), the two steps of [CreateHubModal] ([handleAdminAuth],
      [handleSubmit], [removeFile]), [LoginPage] ([handleSubmit]), [Sidebar]
      ([handleLogout]) and the earlier chat page ([loadHub], [sendMessage]).

    Modelling conventions.  A JavaScript string is held as the bytes of its
    UTF-8 encoding.  JavaScript values that come out of
    [response.json()] are an inductive type [value]; IEEE numbers stay
    abstract ([JsNumber]).  A property access on [null]/[undefined] throws: such
    operations return [option], [None] standing for the thrown [TypeError].
    [localStorage] is a [gmap string string].  The React component state is a
    record; a handler is a closure over the render it was created in, so every
    handler takes the render snapshot [r] it reads from, while the setters it
    calls act on the live state of the [World].  Every observable action is
    appended to the world's [trace].  The network and the clock are oracles
    ([Env]).  [console.log]/[console.error] calls are not recorded. *)

From Stdlib Require Import Ascii.
From stdpp Require Import gmap strings list pretty.

Set Warnings "-register-all".
Local Open Scope Z_scope.

(** ** Strings *)

Definition dquote : string := String "034"%char EmptyString.

(** The string of the given bytes. *)
Definition utf8 (bytes : list nat) : string :=
  fold_right (λ b s, String (ascii_of_nat b) s) EmptyString bytes.

(** The white space of ECMAScript ([WhiteSpace] and [LineTerminator]): the
    characters that [String.prototype.trim] and [parseInt] strip, each as the
    bytes of its UTF-8 encoding. *)
Definition white_space : list string :=
  map utf8
    ([[9]; [10]; [11]; [12]; [13]; [32];      (* TAB, LF, VT, FF, CR, SP *)
      [194; 160];                             (* U+00A0 *)
      [225; 154; 128];                        (* U+1680 *)
      [226; 128; 128]; [226; 128; 129]; [226; 128; 130]; [226; 128; 131];
      [226; 128; 132]; [226; 128; 133]; [226; 128; 134]; [226; 128; 135];
      [226; 128; 136]; [226; 128; 137]; [226; 128; 138];   (* U+2000 to U+200A *)
      [226; 128; 168]; [226; 128; 169];       (* U+2028, U+2029 *)
      [226; 128; 175];                        (* U+202F *)
      [226; 129; 159];                        (* U+205F *)
      [227; 128; 128];                        (* U+3000 *)
      [239; 187; 191]])%nat.                  (* U+FEFF *)

(** Strips the characters of [spaces] that [s] starts with; none of them has
    more than three bytes. *)
Fixpoint strip (spaces : list string) (s : string) : string :=
  match s with
  | String a s1 =>
      if bool_decide (String a EmptyString ∈ spaces) then strip spaces s1
      else
        match s1 with
        | String b s2 =>
            if bool_decide (String a (String b EmptyString) ∈ spaces) then strip spaces s2
            else
              match s2 with
              | String c s3 =>
                  if bool_decide (String a (String b (String c EmptyString)) ∈ spaces)
                  then strip spaces s3
                  else s
              | EmptyString => s
              end
        | EmptyString => s
        end
  | EmptyString => EmptyString
  end.

(** [String.prototype.trimStart], [trimEnd] (the same from the other end)
    and [trim]. *)
Definition trim_start (s : string) : string := strip white_space s.

Definition trim_end (s : string) : string :=
  String.rev (strip (map String.rev white_space) (String.rev s)).

Definition trim (s : string) : string := trim_end (trim_start s).

(** [String.prototype.includes]. *)
Fixpoint str_includes (needle hay : string) : bool :=
  String.prefix needle hay ||
  match hay with
  | String _ hay' => str_includes needle hay'
  | EmptyString => false
  end.

(** A JavaScript string is truthy when it is not empty. *)
Definition nonempty (s : string) : bool :=
  match s with EmptyString => false | _ => true end.

(** [parseInt(s)] without a radix: leading white space, an optional sign, an
    optional [0x] prefix, then the longest run of digits; [None] is [NaN]. *)
Definition digit_value (radix : Z) (c : ascii) : option Z :=
  let n := Z.of_nat (nat_of_ascii c) in
  let d :=
    if (48 <=? n) && (n <=? 57) then Some (n - 48)
    else if (97 <=? n) && (n <=? 122) then Some (n - 87)
    else if (65 <=? n) && (n <=? 90) then Some (n - 55)
    else None in
  match d with
  | Some v => if v <? radix then Some v else None
  | None => None
  end.

Fixpoint parse_digits (radix : Z) (acc : option Z) (s : string) : option Z :=
  match s with
  | String c s' =>
      match digit_value radix c with
      | Some d => parse_digits radix (Some (from_option id 0 acc * radix + d)) s'
      | None => acc
      end
  | EmptyString => acc
  end.

Definition parse_unsigned (s : string) : option Z :=
  match s with
  | String "0" (String "x" s') | String "0" (String "X" s') => parse_digits 16 None s'
  | _ => parse_digits 10 None s
  end.

Definition parseInt (s : string) : option Z :=
  match trim_start s with
  | String "-" s' => Z.opp <$> parse_unsigned s'
  | String "+" s' => parse_unsigned s'
  | s' => parse_unsigned s'
  end.

(** ** The argument of [sendMessage]

    [sendMessage] has one parameter, [retryCount = 0].  The key handler calls
    [sendMessage()], a retry timer calls [sendMessage(retryCount + 1)], and the
    Send button is given the function itself, [onClick={sendMessage}], so that
    its click calls [sendMessage(event)]: there [retryCount] is the click
    event. *)
Inductive RetryCount :=
| Count (n : nat)
| ClickEvent.   (* the event, and the texts that adding 1 to it gives *)

(** [retryCount < k]: the click event converts to [NaN], and a comparison
    with [NaN] is false. *)
Definition below (retryCount : RetryCount) (k : nat) : bool :=
  match retryCount with
  | Count n => (n <? k)%nat
  | ClickEvent => false
  end.

(** [retryCount + 1]: on the click event the sum is a text, which converts
    to [NaN] as the event does. *)
Definition plus_one (retryCount : RetryCount) : RetryCount :=
  match retryCount with
  | Count n => Count (n + 1)
  | ClickEvent => ClickEvent
  end.

(** ** JavaScript values *)

Class JsNumber := {
  number : Type;
  number_truthy : number → bool;      (* neither 0 nor NaN *)
  number_to_string : number → string  (* Number.prototype.toString *)
}.

Section Values.
Context `{JsNumber}.

Inductive value :=
| VUndefined
| VNull
| VBool (b : bool)
| VNum (n : number)
| VStr (s : string)
| VArr (l : list value)
| VObj (fields : list (string * value)).

Definition truthy (v : value) : bool :=
  match v with
  | VUndefined | VNull => false
  | VBool b => b
  | VNum n => number_truthy n
  | VStr s => nonempty s
  | VArr _ | VObj _ => true
  end.

(** [a || b] *)
Definition js_or (a b : value) : value := if truthy a then a else b.

Fixpoint assoc (k : string) (fields : list (string * value)) : value :=
  match fields with
  | (k', v) :: rest => if decide (k = k') then v else assoc k rest
  | [] => VUndefined
  end.

(** [v.k] for the property names the code reads ([detail], [msg], [message],
    [answer], [sources]): own properties of an object, [undefined] on the other
    non-nullish values, a [TypeError] on [null] and [undefined]. *)
Definition get (v : value) (k : string) : option value :=
  match v with
  | VUndefined | VNull => None
  | VObj fields => Some (assoc k fields)
  | _ => Some VUndefined
  end.

(** [ToString], and [Array.prototype.join], which prints [null] and [undefined]
    elements as the empty string. *)
Fixpoint to_string (v : value) : string :=
  match v with
  | VUndefined => "undefined"
  | VNull => "null"
  | VBool true => "true"
  | VBool false => "false"
  | VNum n => number_to_string n
  | VStr s => s
  | VArr l =>
      String.concat ","
        (map (λ x, match x with VUndefined | VNull => EmptyString | _ => to_string x end) l)
  | VObj _ => "[object Object]"
  end.

Definition join_element (x : value) : string :=
  match x with VUndefined | VNull => EmptyString | _ => to_string x end.

Definition join (sep : string) (l : list value) : string :=
  String.concat sep (map join_element l).

Definition is_str (v : value) (s : string) : bool :=
  match v with VStr s' => bool_decide (s' = s) | _ => false end.

(** [v.includes(s)] for a string argument [s]: substring search on a string,
    membership on an array, a [TypeError] where the method does not exist. *)
Definition includes (v : value) (s : string) : option bool :=
  match v with
  | VStr hay => Some (str_includes s hay)
  | VArr l => Some (existsb (λ x, is_str x s) l)
  | _ => None
  end.

(** ** Network *)

Record Response := {
  status : Z;
  statusText : string;
  body : option value   (* [None]: the body is not JSON, [response.json()] rejects *)
}.

(** [response.ok] *)
Definition ok (resp : Response) : bool :=
  (200 <=? status resp) && (status resp <=? 299).

Inductive FetchResult :=
| NetworkError                  (* the [fetch] promise rejects *)
| Responded (resp : Response).

Record File := { name : string; size : Z }.

Inductive FormEntry := FormText (s : string) | FormFile (f : File).

Inductive Body :=
| NoBody
| JsonBody (v : value)                           (* [JSON.stringify(v)] *)
| FormBody (entries : list (string * FormEntry)). (* a [FormData] *)

Record Request := { url : string; method : string; payload : Body }.

Definition POST (u : string) : Request :=
  {| url := u; method := "POST"; payload := NoBody |}.

Inductive Toast :=
| ToastSuccess (msg : value)
| ToastError (msg : value).

(** ** CreateHubModal *)

Definition maxSize : Z := 50 * 1024 * 1024.

Definition too_large_text (n : nat) : string :=
  pretty n +:+ " file(s) too large (max 50MB each)".
Definition rejected_text (n : nat) : string :=
  pretty n +:+ " file(s) rejected (unsupported format)".
Definition added_text (n : nat) : string :=
  "Added " +:+ pretty n +:+ " file(s)".

Definition when {A} (b : bool) (l : list A) : list A := if b then l else [].

(** The drop zone callback: the new value of [uploadedFiles] and the toasts
    shown, in order. *)
Definition onDrop {R} (acceptedFiles : list File) (rejectedFiles : list R)
    (uploadedFiles : list File) : list File * list Toast :=
  let validFiles := filter (λ file, size file ≤ maxSize) acceptedFiles in
  let oversizedFiles := filter (λ file, size file > maxSize) acceptedFiles in
  let t1 := when (0 <? length oversizedFiles)%nat
              [ToastError (VStr (too_large_text (length oversizedFiles)))] in
  let t2 := when (0 <? length rejectedFiles)%nat
              [ToastError (VStr (rejected_text (length rejectedFiles)))] in
  if (0 <? length validFiles)%nat
  then (uploadedFiles ++ validFiles,
        t1 ++ t2 ++ [ToastSuccess (VStr (added_text (length validFiles)))])
  else (uploadedFiles, t1 ++ t2).

Definition sizes : list string := ["Bytes"; "KB"; "MB"; "GB"].

(** [Math.floor(Math.log(bytes) / Math.log(k))] for [k = 1024], as the exact
    value of the real quotient: the logarithms are taken to base 2, where
    [log2 1024 = 10], and the floor of the quotient of the real logarithms is the
    integer quotient of [Z.log2 bytes] (see [unit_index_spec]). *)
Definition unit_index (bytes k : Z) : Z := Z.log2 bytes / Z.log2 k.

(** [formatFileSize]; [mantissa bytes d] stands for the text of
    [parseFloat((bytes / d).toFixed(2))], and a lookup outside [sizes] prints
    as [undefined]. *)
Definition formatFileSize (mantissa : Z → Z → string) (bytes : Z) : string :=
  if bytes =? 0 then "0 Bytes"
  else if bytes <? 0 then "NaN undefined"   (* [Math.log] of a negative number *)
  else
    let k := 1024 in
    let i := unit_index bytes k in
    mantissa bytes (k ^ i) +:+ " " +:+
      from_option id "undefined" (if i <? 0 then None else sizes !! Z.to_nat i).

(** ** Error bodies of failed responses *)

Section ErrorBodies.
Variable JSON_stringify : value → string.

(** [error.detail.map((err: any) => err.msg || err.message).join(', ')] *)
Definition card_item (err : value) : option value :=
  msg ← get err "msg";
  if truthy msg then Some msg else get err "message".

(** The shape analysis of the failure branch of [handleSync] (the same text
    is in [handleLoadUnload] and [handleDelete], with another initial
    [errorMessage]).  [None]: a [TypeError] was thrown on the way. *)
Definition card_error_message (initial : string) (error : value) : option value :=
  detail ← get error "detail";
  if truthy detail then
    match detail with
    | VArr l => items ← mapM card_item l; Some (VStr (join ", " items))
    | VStr s => Some (VStr s)
    | _ =>
        msg ← get detail "msg";
        Some (if truthy msg then msg else VStr initial)
    end
  else Some (VStr initial).

Record Hub := {
  hub_name : string;
  hub_status : string;
  file_count : Z;
  sharepoint_linked : bool
}.

Inductive CardEvent :=
| CardSetIsLoading (b : bool)
| CardFetch (req : Request)
| CardToast (t : Toast)
| CardOnUpdate
| CardCheckLoadedStatus.

(** [HubCard.handleSync], given how its one [fetch] settles. *)
Definition handleSync (hub : Hub) (res : FetchResult) : list CardEvent :=
  if negb (sharepoint_linked hub) then []
  else
    [CardSetIsLoading true;
     CardFetch (POST ("/api/hubs/" +:+ hub_name hub +:+ "/sync"))] ++
    match res with
    | Responded response =>
        if ok response then
          match result ← body response; get result "message" with
          | Some message =>
              [CardToast (ToastSuccess message); CardOnUpdate; CardCheckLoadedStatus]
          | None => [CardToast (ToastError (VStr "Sync failed"))]
          end
        else
          match error ← body response; card_error_message "Sync failed" error with
          | Some errorMessage => [CardToast (ToastError errorMessage)]
          | None => [CardToast (ToastError (VStr "Sync failed"))]
          end
    | NetworkError => [CardToast (ToastError (VStr "Sync failed"))]
    end ++
    [CardSetIsLoading false].

(** [err.msg || err.message || JSON.stringify(err)] *)
Definition create_item (err : value) : option value :=
  msg ← get err "msg";
  if truthy msg then Some msg
  else
    message ← get err "message";
    Some (if truthy message then message else VStr (JSON_stringify err)).

(** The [try] block of the failure branch of [DashboardPage.handleCreateHub]. *)
Definition create_error_message (error : value) : option value :=
  detail ← get error "detail";
  if truthy detail then
    match detail with
    | VArr l => items ← mapM create_item l; Some (VStr (join ", " items))
    | VStr s => Some (VStr s)
    | _ =>
        msg ← get detail "msg";
        Some (if truthy msg then msg else VStr (JSON_stringify detail))
    end
  else
    message ← get error "message";
    Some (if truthy message then message else VStr (JSON_stringify error)).

(** [`Server error (${response.status}): ${response.statusText}`] *)
Definition server_error_text (response : Response) : string :=
  "Server error (" +:+ pretty (status response) +:+ "): " +:+ statusText response.

(** The argument of [handleCreateHub]: a [FormData] or a plain object. *)
Inductive HubData :=
| UploadData (entries : list (string * FormEntry))
| LinkData (v : value).

Inductive DashEvent :=
| DashFetch (req : Request)
| DashToast (t : Toast)
| DashSetShowCreateModal (b : bool)
| DashFetchHubs.

Definition create_request (hubData : HubData) : Request :=
  match hubData with
  | UploadData entries =>
      {| url := "/api/hubs/from-upload"; method := "POST"; payload := FormBody entries |}
  | LinkData v =>
      {| url := "/api/hubs/from-sharepoint"; method := "POST"; payload := JsonBody v |}
  end.

(** [DashboardPage.handleCreateHub], given how its one [fetch] settles. *)
Definition handleCreateHub (hubData : HubData) (res : FetchResult) : list DashEvent :=
  DashFetch (create_request hubData) ::
  match res with
  | Responded response =>
      if ok response then
        match body response with
        | Some _ =>
            [DashToast (ToastSuccess (VStr "Hub created successfully!"));
             DashSetShowCreateModal false; DashFetchHubs]
        | None => [DashToast (ToastError (VStr "Failed to create hub"))]
        end
      else
        match error ← body response; create_error_message error with
        | Some errorMessage => [DashToast (ToastError errorMessage)]
        | None => [DashToast (ToastError (VStr (server_error_text response)))]
        end
  | NetworkError => [DashToast (ToastError (VStr "Failed to create hub"))]
  end.

End ErrorBodies.

(** ** Session guard *)

(** The [type] of the first navigation entry of the performance timeline. *)
Inductive NavigationType := navigate | reload | back_forward | prerender.

(** Truthiness of what [localStorage.getItem] returns. *)
Definition item_truthy (o : option string) : bool :=
  match o with Some s => nonempty s | None => false end.

(** [now - parseInt(lastLoad) > 3000]; a comparison with [NaN] is false. *)
Definition stale (now : Z) (lastLoad : option string) : bool :=
  match lastLoad ≫= parseInt with
  | Some t => 3000 <? now - t
  | None => false
  end.

Definition clear_session (ls : gmap string string) : gmap string string :=
  delete "justLoggedIn" (delete "loadTime" (delete "user" (delete "isAuthenticated" ls))).

(** The mount effects return the new [localStorage] and the URL assigned to
    [window.location.href], if any. *)
Definition dashboardGuard (now : Z) (navigationType : option NavigationType)
    (ls : gmap string string) : gmap string string * option string :=
  let lastLoad := ls !! "lastPageLoad" in
  let justLoggedIn := ls !! "justLoggedIn" in
  if item_truthy justLoggedIn then
    (<["lastPageLoad" := pretty now]> (delete "justLoggedIn" ls), None)
  else
    let isActualRefresh :=
      match navigationType with Some reload => true | _ => false end in
    if item_truthy lastLoad && isActualRefresh && stale now lastLoad then
      (clear_session ls, Some "/login")
    else (<["lastPageLoad" := pretty now]> ls, None).

Definition chatGuard (now : Z) (ls : gmap string string)
    : gmap string string * option string :=
  let lastLoad := ls !! "lastPageLoad" in
  let justLoggedIn := ls !! "justLoggedIn" in
  if item_truthy justLoggedIn then
    (<["lastPageLoad" := pretty now]> (delete "justLoggedIn" ls), None)
  else if item_truthy lastLoad && stale now lastLoad then
    (clear_session ls, Some "/login")
  else (<["lastPageLoad" := pretty now]> ls, None).

(** ** ChatPage: state, world and primitive actions *)

Inductive Role := user | assistant.

Record Message := {
  msg_id : string;
  role : Role;
  content : value;
  timestamp : Z;
  sources : value
}.

Inductive ConnectionStatus := connected | disconnected | checking.

(** The component state ([hubs], [loadedHubs] and [isLoadingHubs], which only
    the detached [fetchHubs] and [fetchLoadedHubs] write, are left out). *)
Record ChatState := {
  selectedHub : string;
  previousHub : option string;
  messages : list Message;
  input : string;
  isLoading : bool;
  error : option value;
  isHubOperationLoading : bool;
  connectionStatus : ConnectionStatus
}.

(** Calls of the state setters. [AppendMessage m] is
    [setMessages(prev => [...prev, m])]. *)
Inductive Update :=
| SetSelectedHub (s : string)
| SetPreviousHub (o : option string)
| SetMessages (l : list Message)
| AppendMessage (m : Message)
| SetInput (s : string)
| SetIsLoading (b : bool)
| SetError (e : option value)
| SetIsHubOperationLoading (b : bool)
| SetConnectionStatus (c : ConnectionStatus).

Definition apply_update (u : Update) (s : ChatState) : ChatState :=
  match u with
  | SetSelectedHub x =>
      {| selectedHub := x; previousHub := previousHub s; messages := messages s;
         input := input s; isLoading := isLoading s; error := error s;
         isHubOperationLoading := isHubOperationLoading s;
         connectionStatus := connectionStatus s |}
  | SetPreviousHub x =>
      {| selectedHub := selectedHub s; previousHub := x; messages := messages s;
         input := input s; isLoading := isLoading s; error := error s;
         isHubOperationLoading := isHubOperationLoading s;
         connectionStatus := connectionStatus s |}
  | SetMessages x =>
      {| selectedHub := selectedHub s; previousHub := previousHub s; messages := x;
         input := input s; isLoading := isLoading s; error := error s;
         isHubOperationLoading := isHubOperationLoading s;
         connectionStatus := connectionStatus s |}
  | AppendMessage m =>
      {| selectedHub := selectedHub s; previousHub := previousHub s;
         messages := messages s ++ [m];
         input := input s; isLoading := isLoading s; error := error s;
         isHubOperationLoading := isHubOperationLoading s;
         connectionStatus := connectionStatus s |}
  | SetInput x =>
      {| selectedHub := selectedHub s; previousHub := previousHub s;
         messages := messages s;
         input := x; isLoading := isLoading s; error := error s;
         isHubOperationLoading := isHubOperationLoading s;
         connectionStatus := connectionStatus s |}
  | SetIsLoading x =>
      {| selectedHub := selectedHub s; previousHub := previousHub s;
         messages := messages s;
         input := input s; isLoading := x; error := error s;
         isHubOperationLoading := isHubOperationLoading s;
         connectionStatus := connectionStatus s |}
  | SetError x =>
      {| selectedHub := selectedHub s; previousHub := previousHub s;
         messages := messages s;
         input := input s; isLoading := isLoading s; error := x;
         isHubOperationLoading := isHubOperationLoading s;
         connectionStatus := connectionStatus s |}
  | SetIsHubOperationLoading x =>
      {| selectedHub := selectedHub s; previousHub := previousHub s;
         messages := messages s;
         input := input s; isLoading := isLoading s; error := error s;
         isHubOperationLoading := x;
         connectionStatus := connectionStatus s |}
  | SetConnectionStatus x =>
      {| selectedHub := selectedHub s; previousHub := previousHub s;
         messages := messages s;
         input := input s; isLoading := isLoading s; error := error s;
         isHubOperationLoading := isHubOperationLoading s;
         connectionStatus := x |}
  end.

(** Async calls that are started and not awaited. *)
Inductive Task := fetchLoadedHubs | fetchHubs.

(** A pending [setTimeout(() => sendMessage(retryCount + 1), delay)]: the
    callback is the [sendMessage] of the render that scheduled it. *)
Record Timer := { delay : Z; timer_render : ChatState; timer_retryCount : RetryCount }.

Inductive Event :=
| EvSet (u : Update)
| EvFetch (i : nat) (req : Request)         (* the i-th request is issued *)
| EvSettled (i : nat) (res : FetchResult)   (* its promise settles *)
| EvToast (t : Toast)
| EvSpawn (t : Task)
| EvSetTimeout (ms : Z) (retryCount : RetryCount)
| EvTimerFired (ms : Z) (retryCount : RetryCount)
| EvSetItem (k v : string)
| EvRemoveItem (k : string)
| EvLocation (href : string).

Record World := {
  state : ChatState;
  localStorage : gmap string string;
  trace : list Event;
  timers : list Timer;
  fetches : nat;   (* requests issued so far *)
  ticks : nat      (* clock readings taken so far *)
}.

(** The environment: how the i-th request settles, what the i-th reading of
    the clock returns. *)
Record Env := { net : nat → Request → FetchResult; clock : nat → Z }.

Definition M (A : Type) : Type := World → A * World.

#[export] Instance M_ret : MRet M := λ A x w, (x, w).
#[export] Instance M_bind : MBind M := λ A B f m w, let '(a, w') := m w in f a w'.

Definition put_state (s : ChatState) (w : World) : World :=
  {| state := s; localStorage := localStorage w; trace := trace w;
     timers := timers w; fetches := fetches w; ticks := ticks w |}.
Definition put_storage (ls : gmap string string) (w : World) : World :=
  {| state := state w; localStorage := ls; trace := trace w;
     timers := timers w; fetches := fetches w; ticks := ticks w |}.
Definition put_timers (ts : list Timer) (w : World) : World :=
  {| state := state w; localStorage := localStorage w; trace := trace w;
     timers := ts; fetches := fetches w; ticks := ticks w |}.
Definition record (es : list Event) (w : World) : World :=
  {| state := state w; localStorage := localStorage w; trace := trace w ++ es;
     timers := timers w; fetches := fetches w; ticks := ticks w |}.

Definition skip : M unit := mret ().
Definition set (u : Update) : M unit :=
  λ w, ((), record [EvSet u] (put_state (apply_update u (state w)) w)).
Definition toast (t : Toast) : M unit := λ w, ((), record [EvToast t] w).
Definition spawn (t : Task) : M unit := λ w, ((), record [EvSpawn t] w).
Definition getItem (k : string) : M (option string) := λ w, (localStorage w !! k, w).
Definition setItem (k v : string) : M unit :=
  λ w, ((), record [EvSetItem k v] (put_storage (<[k := v]> (localStorage w)) w)).
Definition removeItem (k : string) : M unit :=
  λ w, ((), record [EvRemoveItem k] (put_storage (delete k (localStorage w)) w)).
Definition retry_timer (ms : Z) (r : ChatState) (retryCount : RetryCount) : Timer :=
  {| delay := ms; timer_render := r; timer_retryCount := retryCount |}.
Definition setTimeout (ms : Z) (r : ChatState) (retryCount : RetryCount) : M unit :=
  λ w, ((), record [EvSetTimeout ms retryCount]
              (put_timers (timers w ++ [retry_timer ms r retryCount]) w)).

Section Page.
Variable env : Env.
Variable JSON_stringify : list Message → string.
Variable JSON_parse : string → option (list Message).   (* [None]: it throws *)

(** [await fetch(req)] *)
Definition fetch (req : Request) : M FetchResult :=
  λ w, let i := fetches w in
       let res := net env i req in
       (res, record [EvFetch i req; EvSettled i res]
               {| state := state w; localStorage := localStorage w; trace := trace w;
                  timers := timers w; fetches := S i; ticks := ticks w |}).

(** [Date.now()], also used for [new Date()] *)
Definition Date_now : M Z :=
  λ w, (clock env (ticks w),
        {| state := state w; localStorage := localStorage w; trace := trace w;
           timers := timers w; fetches := fetches w; ticks := S (ticks w) |}).

Definition chat_key (hub : string) : string := "chat_" +:+ hub.

(** [fetch(`/api/hubs/${hub}/load`, { method: 'POST' })] and its twin. *)
Definition load_request (hub : string) : Request :=
  POST ("/api/hubs/" +:+ hub +:+ "/load").
Definition unload_request (hub : string) : Request :=
  POST ("/api/hubs/" +:+ hub +:+ "/unload").

(** *** Effects of the page *)

(** The session guard, run on mount. *)
Definition run_guard (now : Z) : M unit :=
  λ w, let '(ls, href) := chatGuard now (localStorage w) in
       ((), record (from_option (λ h, [EvLocation h]) [] href) (put_storage ls w)).

Definition guardEffect : M unit := now ← Date_now; run_guard now.

(** Load messages from localStorage, run when [selectedHub] changes. *)
Definition loadMessagesEffect (r : ChatState) : M unit :=
  savedMessages ← getItem (chat_key (selectedHub r));
  if item_truthy savedMessages then
    match savedMessages ≫= JSON_parse with
    | Some l => set (SetMessages l)
    | None => skip
    end
  else skip.

(** Save messages to localStorage, run when [messages] or [selectedHub]
    changes. *)
Definition saveMessagesEffect (r : ChatState) : M unit :=
  if (0 <? length (messages r))%nat && nonempty (selectedHub r) then
    setItem (chat_key (selectedHub r)) (JSON_stringify (messages r))
  else skip.

Definition loadHub_catch : M unit :=
  toast (ToastError (VStr "Failed to load hub"));;
  set (SetSelectedHub EmptyString);;
  set (SetPreviousHub None).

Definition loadHub (r : ChatState) : M unit :=
  if negb (nonempty (selectedHub r)) then skip
  else
    set (SetIsHubOperationLoading true);;
    res ← fetch (load_request (selectedHub r));
    match res with
    | Responded response =>
        if ok response then
          match result ← body response; get result "message" with
          | Some message =>
              toast (ToastSuccess (js_or message
                (VStr ("Hub " +:+ dquote +:+ selectedHub r +:+ dquote +:+
                       " loaded successfully"))));;
              spawn fetchLoadedHubs;;
              spawn fetchHubs
          | None => loadHub_catch
          end
        else
          match error ← body response; get error "detail" with
          | Some detail =>
              toast (ToastError (js_or detail (VStr "Failed to load hub")));;
              (* If load fails, clear selection *)
              set (SetSelectedHub EmptyString);;
              set (SetPreviousHub None)
          | None => loadHub_catch
          end
    | NetworkError => loadHub_catch
    end;;
    set (SetIsHubOperationLoading false).

Definition unloadHub_catch : M unit :=
  toast (ToastError (VStr "Failed to unload hub")).

Definition unloadHub (r : ChatState) (hubName : string) : M unit :=
  set (SetIsHubOperationLoading true);;
  res ← fetch (unload_request hubName);
  match res with
  | Responded response =>
      if ok response then
        match result ← body response; get result "message" with
        | Some message =>
            toast (ToastSuccess (js_or message
              (VStr ("Hub " +:+ dquote +:+ hubName +:+ dquote +:+ " unloaded"))));;
            spawn fetchLoadedHubs;;
            spawn fetchHubs;;
            (* If the unloaded hub was selected, clear selection and messages *)
            if bool_decide (selectedHub r = hubName) then
              set (SetSelectedHub EmptyString);;
              set (SetPreviousHub None);;
              set (SetMessages []);;
              removeItem (chat_key hubName)
            else skip
        | None => unloadHub_catch
        end
      else
        match error ← body response; get error "detail" with
        | Some detail => toast (ToastError (js_or detail (VStr "Failed to unload hub")))
        | None => unloadHub_catch
        end
  | NetworkError => unloadHub_catch
  end;;
  set (SetIsHubOperationLoading false).

(** The effect run when [selectedHub] changes. [selectedHub !== previousHub]
    compares a string with a string or [null]. *)
Definition switchHub (r : ChatState) : M unit :=
  if nonempty (selectedHub r) && negb (bool_decide (previousHub r = Some (selectedHub r)))
  then
    (* Unload previous hub if it exists and is different *)
    match previousHub r with
    | Some previous => if nonempty previous then unloadHub r previous else skip
    | None => skip
    end;;
    (* Load new hub *)
    loadHub r;;
    set (SetPreviousHub (Some (selectedHub r)))
  else skip.

Definition clearChat (r : ChatState) : M unit :=
  set (SetMessages []);;
  (if nonempty (selectedHub r) then removeItem (chat_key (selectedHub r)) else skip);;
  toast (ToastSuccess (VStr "Chat cleared")).

(** *** Sending a message *)

Definition chat_request (query hub : string) : Request :=
  {| url := "/api/chat"; method := "POST";
     payload := JsonBody (VObj [("query", VStr query); ("hub_name", VStr hub);
                                ("include_sources", VBool true)]) |}.

(** Appends an assistant message built after the exchange: its id is
    [(Date.now() + 1).toString()], its timestamp [new Date()]. *)
Definition appendAssistant (c srcs : value) : M unit :=
  now ← Date_now;
  date ← Date_now;
  set (AppendMessage {| msg_id := pretty (now + 1); role := assistant; content := c;
                        timestamp := date; sources := srcs |}).

Definition network_error_text : string :=
  "Network error - please check your connection".

(** The [catch] block of [sendMessage]. *)
Definition sendMessage_catch (r : ChatState) (retryCount : RetryCount) : M unit :=
  let errorMsg := network_error_text in
  set (SetConnectionStatus disconnected);;
  (* Auto-retry for network errors *)
  if below retryCount 2 then
    setTimeout 3000 r (plus_one retryCount)   (* Retry after 3 seconds *)
  else
    set (SetError (Some (VStr errorMsg)));;
    toast (ToastError (VStr errorMsg));;
    appendAssistant (VStr ("Error: " +:+ errorMsg)) VUndefined.

(** [retryCount < 2 && (errorMsg.includes('network') || errorMsg.includes('connection'))] *)
Definition should_retry (retryCount : RetryCount) (errorMsg : value) : option bool :=
  if below retryCount 2 then
    a ← includes errorMsg "network";
    if a : bool then Some true else includes errorMsg "connection"
  else Some false.

(** [userMessage.content] *)
Definition content_text (r : ChatState) : string := trim (input r).

Definition userMessage (r : ChatState) (now date : Z) : Message :=
  {| msg_id := pretty now; role := user; content := VStr (content_text r);
     timestamp := date; sources := VUndefined |}.

Definition sendMessage (r : ChatState) (retryCount : RetryCount) : M unit :=
  if negb (nonempty (trim (input r))) || negb (nonempty (selectedHub r)) || isLoading r
  then skip
  else
    set (SetError None);;
    now ← Date_now;
    date ← Date_now;
    set (AppendMessage (userMessage r now date));;
    set (SetInput EmptyString);;
    set (SetIsLoading true);;
    res ← fetch (chat_request (content_text r) (selectedHub r));
    match res with
    | Responded response =>
        if ok response then
          match data ← body response;
                answer ← get data "answer";
                srcs ← get data "sources";
                Some (answer, srcs) with
          | Some (answer, srcs) =>
              appendAssistant answer srcs;;
              (* Update loaded hubs list in case backend auto-loaded the hub *)
              spawn fetchLoadedHubs;;
              set (SetConnectionStatus connected)
          | None => sendMessage_catch r retryCount
          end
        else
          match errorData ← body response; get errorData "detail" with
          | Some detail =>
              let errorMsg := js_or detail (VStr "Failed to get response") in
              (* Auto-retry logic for network errors (max 2 retries) *)
              match should_retry retryCount errorMsg with
              | Some true =>
                  setTimeout 2000 r (plus_one retryCount)   (* Retry after 2 seconds *)
              | Some false =>
                  set (SetError (Some errorMsg));;
                  toast (ToastError errorMsg);;
                  appendAssistant (VStr ("Error: " +:+ to_string errorMsg)) VUndefined
              | None => sendMessage_catch r retryCount
              end
          | None => sendMessage_catch r retryCount
          end
    | NetworkError => sendMessage_catch r retryCount
    end;;
    set (SetIsLoading false).

(** The events with which every call of [sendMessage] that passes its guard
    begins, in world [w]. *)
Definition opening (r : ChatState) (w : World) : list Event :=
  let req := chat_request (content_text r) (selectedHub r) in
  [EvSet (SetError None);
   EvSet (AppendMessage (userMessage r (clock env (ticks w)) (clock env (S (ticks w)))));
   EvSet (SetInput EmptyString);
   EvSet (SetIsLoading true);
   EvFetch (fetches w) req;
   EvSettled (fetches w) (net env (fetches w) req)].

(** *** The event loop *)

(** The world in which the callback of timer [t] starts, [rest] being the
    timers still pending. *)
Definition fired (t : Timer) (rest : list Timer) (w : World) : World :=
  record [EvTimerFired (delay t) (timer_retryCount t)] (put_timers rest w).

(** Runs the callback of the oldest pending timer, if there is one. *)
Definition fireTimer : M bool :=
  λ w, match timers w with
       | t :: rest =>
           (true, (sendMessage (timer_render t) (timer_retryCount t) (fired t rest w)).2)
       | [] => (false, w)
       end.

(** Runs the callback of the pending timer at position [i], if there is
    one.  Timers set at different moments, with different delays, fire in no
    fixed order. *)
Definition fireTimerAt (i : nat) : M bool :=
  λ w, match timers w !! i with
       | Some t =>
           (true, (sendMessage (timer_render t) (timer_retryCount t)
                     (fired t (delete i (timers w)) w)).2)
       | None => (false, w)
       end.

(** Fires, at most [n] times, the timer that comes after the first [pending]
    ones, until there is none. *)
Fixpoint runRetries (pending n : nat) : M unit :=
  match n with
  | O => skip
  | S n' => fired ← fireTimerAt pending; if fired : bool then runRetries pending n' else skip
  end.

(** A whole exchange: a call of [sendMessage] and the retries it leads to.
    The timers that are pending when the call is made belong to other
    exchanges and stay pending.  [exchange r (Count 0)] is the exchange the key
    handler starts, [exchange r ClickEvent] the one the Send button starts. *)
Definition exchange (r : ChatState) (retryCount : RetryCount) : M unit :=
  λ w, (sendMessage r retryCount;; runRetries (length (timers w)) 2) w.

(** *** Everything the page does *)

Inductive Action :=
| Mount                                    (* the session guard effect *)
| SelectHub (hub : string)                 (* [onChange] of the selector *)
| TypeInput (text : string)                (* [onChange] of the text area *)
| LoadMessages (r : ChatState)
| SaveMessages (r : ChatState)
| SwitchHub (r : ChatState)
| UnloadHub (r : ChatState) (hubName : string)   (* from the unload-all button *)
| ClearChat (r : ChatState)
| SendMessage (r : ChatState) (retryCount : RetryCount)
| FireTimer.

Definition perform (a : Action) : M unit :=
  match a with
  | Mount => guardEffect
  | SelectHub hub => set (SetSelectedHub hub)
  | TypeInput text => set (SetInput text)
  | LoadMessages r => loadMessagesEffect r
  | SaveMessages r => saveMessagesEffect r
  | SwitchHub r => switchHub r
  | UnloadHub r hubName => unloadHub r hubName
  | ClearChat r => clearChat r
  | SendMessage r retryCount => sendMessage r retryCount
  | FireTimer => _ ← fireTimer; skip
  end.

Fixpoint performAll (l : list Action) : M unit :=
  match l with
  | a :: l' => perform a;; performAll l'
  | [] => skip
  end.

End Page.

(** ** Reading traces *)

(** The events recorded from world [w] to a later world [w']. *)
Definition since (w w' : World) : list Event := drop (length (trace w)) (trace w').

(** The messages appended to the visible list, oldest first. *)
Definition appended (tr : list Event) : list Message :=
  omap (λ e, match e with EvSet (AppendMessage m) => Some m | _ => None end) tr.

Definition is_assistant (m : Message) : bool :=
  match role m with assistant => true | user => false end.

(** The assistant messages appended. *)
Definition bubbles (tr : list Event) : list Message := filter is_assistant (appended tr).

(** The delays of the retries scheduled. *)
Definition scheduled (tr : list Event) : list Z :=
  omap (λ e, match e with EvSetTimeout ms _ => Some ms | _ => None end) tr.

(** Events of the network and of the timers: while one can still come, the
    exchange is not over. *)
Definition pending_event (e : Event) : bool :=
  match e with
  | EvFetch _ _ | EvSettled _ _ | EvSetTimeout _ _ | EvTimerFired _ _ => true
  | _ => false
  end.

Definition is_append (e : Event) : bool :=
  match e with EvSet (AppendMessage _) => true | _ => false end.

(** What matters in an exchange: the appended messages, the network, the
    timers. *)
Definition exchange_event (e : Event) : bool := is_append e || pending_event e.

Definition exchange_view (tr : list Event) : list Event := filter exchange_event tr.

(** What matters in a retry sequence: the timers and the assistant messages. *)
Definition retry_event (e : Event) : bool :=
  match e with
  | EvSetTimeout _ _ | EvTimerFired _ _ => true
  | EvSet (AppendMessage m) => is_assistant m
  | _ => false
  end.

Definition retry_view (tr : list Event) : list Event := filter retry_event tr.

(** What matters in a hub switch: the requests, their settlements, and the
    calls that set the previously active hub to a hub. *)
Definition switch_event (e : Event) : bool :=
  match e with
  | EvFetch _ _ | EvSettled _ _ | EvSet (SetPreviousHub (Some _)) => true
  | _ => false
  end.

Definition switch_view (tr : list Event) : list Event := filter switch_event tr.

Definition card_toasts (tr : list CardEvent) : list Toast :=
  omap (λ e, match e with CardToast t => Some t | _ => None end) tr.

Definition dash_toasts (tr : list DashEvent) : list Toast :=
  omap (λ e, match e with DashToast t => Some t | _ => None end) tr.

(** The guard of [sendMessage]: a non-empty trimmed input, a selected hub, no
    query in flight. *)
Definition can_send (r : ChatState) : Prop :=
  nonempty (trim (input r)) = true ∧ nonempty (selectedHub r) = true ∧ isLoading r = false.

(** The failures that are retried, with the delay of the retry: a rejected
    [fetch], and a response that is not ok whose [detail] is a string that
    mentions the network or the connection. *)
Inductive RetriedFailure : FetchResult → Z → Prop :=
| retried_exception : RetriedFailure NetworkError 3000
| retried_keyword response fields s :
    ok response = false →
    body response = Some (VObj fields) →
    assoc "detail" fields = VStr s →
    str_includes "network" s || str_includes "connection" s = true →
    RetriedFailure (Responded response) 2000.

(** What an assistant message carries: the answer (and the sources) of a
    response that is ok, or an error text. *)
Definition answers (res : FetchResult) (a : Message) : Prop :=
  ∃ response data,
    res = Responded response ∧ ok response = true ∧ body response = Some data ∧
    get data "answer" = Some (content a) ∧ get data "sources" = Some (sources a).

Definition reports_error (a : Message) : Prop :=
  ∃ text, content a = VStr ("Error: " +:+ text).

(** The backoff in the words of the specification: the first retry after two
    seconds, the second after three. *)
Definition specified_backoff : list Z := [2000; 3000].

(** The three shapes of an error [detail], each with the text it carries: a
    string, an object with a [msg], a list of objects with a [msg] or a
    [message]. *)
Definition carries (item : value) (text : string) : Prop :=
  ∃ fields, item = VObj fields ∧
    ((assoc "msg" fields = VStr text ∧ text ≠ EmptyString) ∨
     (truthy (assoc "msg" fields) = false ∧ assoc "message" fields = VStr text
      ∧ text ≠ EmptyString)).

Inductive DetailShape : value → string → Prop :=
| detail_string s : s ≠ EmptyString → DetailShape (VStr s) s
| detail_object fields s :
    assoc "msg" fields = VStr s → s ≠ EmptyString → DetailShape (VObj fields) s
| detail_list items texts :
    Forall2 carries items texts → DetailShape (VArr items) (String.concat ", " texts).

(** Every chat history entry of the storage is the serialization of a
    non-empty message list. *)
Definition histories_nonempty (JSON_stringify : list Message → string)
    (ls : gmap string string) : Prop :=
  ∀ hub v, ls !! chat_key hub = Some v → ∃ l, l ≠ [] ∧ v = JSON_stringify l.

End Values.

(** ** ChatPage: outcomes of an operation *)

(** Whether [a] is the first byte of a white space character. *)
Definition starts_white_space (a : ascii) : bool :=
  existsb (λ p, match p with
                | String a' _ => bool_decide (a = a')
                | EmptyString => false
                end) white_space.

(** A text of white space only: a run of white space characters, which may
    be empty. *)
Definition blank (s : string) : Prop :=
  ∃ spaces, Forall (λ c, c ∈ white_space) spaces ∧ s = foldr String.app EmptyString spaces.

Section Outcomes.
Context `{JsNumber}.

(** The request of a hub operation went through: the response is ok and
    [result.message] can be read off its body. *)
Definition succeeded (res : FetchResult) : bool :=
  match res with
  | Responded response =>
      ok response && bool_decide (is_Some (result ← body response; get result "message"))
  | NetworkError => false
  end.

Definition is_user (m : Message) : bool :=
  match role m with user => true | assistant => false end.

(** The user messages appended. *)
Definition questions (tr : list Event) : list Message := filter is_user (appended tr).

Definition fetch_event (e : Event) : bool :=
  match e with EvFetch _ _ => true | _ => false end.

(** The requests issued. *)
Definition requests (tr : list Event) : list Event := filter fetch_event tr.

(** The toasts shown. *)
Definition toasts (tr : list Event) : list Toast :=
  omap (λ e, match e with EvToast t => Some t | _ => None end) tr.

(** The request was answered, and the answer is ok. *)
Definition answered_ok (res : FetchResult) : bool :=
  match res with Responded response => ok response | NetworkError => false end.

End Outcomes.

(** ** HubCard: the loaded flag, the files panel, deletion *)

Module HubCard.
Section Card.
Context `{JsNumber}.

Record State := {
  isLoading : bool;
  showFiles : bool;
  hubDetails : value;        (* [null] until the details have arrived *)
  isLoadingDetails : bool;
  isLoaded : bool
}.

Definition initial : State :=
  {| isLoading := false; showFiles := false; hubDetails := VNull;
     isLoadingDetails := false; isLoaded := false |}.

Definition setIsLoading (b : bool) (st : State) : State :=
  {| isLoading := b; showFiles := showFiles st; hubDetails := hubDetails st;
     isLoadingDetails := isLoadingDetails st; isLoaded := isLoaded st |}.
Definition setShowFiles (b : bool) (st : State) : State :=
  {| isLoading := isLoading st; showFiles := b; hubDetails := hubDetails st;
     isLoadingDetails := isLoadingDetails st; isLoaded := isLoaded st |}.
Definition setHubDetails (v : value) (st : State) : State :=
  {| isLoading := isLoading st; showFiles := showFiles st; hubDetails := v;
     isLoadingDetails := isLoadingDetails st; isLoaded := isLoaded st |}.
Definition setIsLoadingDetails (b : bool) (st : State) : State :=
  {| isLoading := isLoading st; showFiles := showFiles st; hubDetails := hubDetails st;
     isLoadingDetails := b; isLoaded := isLoaded st |}.
Definition setIsLoaded (b : bool) (st : State) : State :=
  {| isLoading := isLoading st; showFiles := showFiles st; hubDetails := hubDetails st;
     isLoadingDetails := isLoadingDetails st; isLoaded := b |}.

(** [fetch(u)] without options. *)
Definition GET (u : string) : Request := {| url := u; method := "GET"; payload := NoBody |}.

(** Every handler below runs in the render of the state [st] it starts from
    and is given how its one [fetch] settles; it returns the state it leaves
    and what it did. *)

Definition checkLoadedStatus (hub : Hub) (res : FetchResult) (st : State)
    : State * list CardEvent :=
  (match res with
   | Responded response =>
       if ok response then
         match data ← body response;
               loaded_hubs ← get data "loaded_hubs";
               includes loaded_hubs (hub_name hub) with
         | Some b => setIsLoaded b st
         | None => st
         end
       else st
   | NetworkError => st
   end,
   [CardFetch (GET "/api/hubs/loaded/list")]).

Definition handleLoadUnload (hub : Hub) (res : FetchResult) (st : State)
    : State * list CardEvent :=
  let endpoint := if isLoaded st then "unload" else "load" in
  let failed := [CardToast (ToastError (VStr "Operation failed"))] in
  let '(st', outcome) :=
    match res with
    | Responded response =>
        if ok response then
          match result ← body response; get result "message" with
          | Some message =>
              (setIsLoaded (negb (isLoaded st)) (setIsLoading true st),
               [CardToast (ToastSuccess message); CardOnUpdate])
          | None => (setIsLoading true st, failed)
          end
        else
          match error ← body response;
                card_error_message (endpoint +:+ " failed") error with
          | Some errorMessage =>
              (setIsLoading true st, [CardToast (ToastError errorMessage)])
          | None => (setIsLoading true st, failed)
          end
    | NetworkError => (setIsLoading true st, failed)
    end in
  (setIsLoading false st',
   [CardSetIsLoading true;
    CardFetch (POST ("/api/hubs/" +:+ hub_name hub +:+ "/" +:+ endpoint))] ++
   outcome ++ [CardSetIsLoading false]).

Definition details_failed : list CardEvent :=
  [CardToast (ToastError (VStr "Failed to load hub details"))].

Definition fetchHubDetails (hub : Hub) (res : FetchResult) (st : State)
    : State * list CardEvent :=
  if truthy (hubDetails st) then (st, [])   (* Already loaded *)
  else
    let '(st', outcome) :=
      match res with
      | Responded response =>
          if ok response then
            match body response with
            | Some data => (setHubDetails data (setIsLoadingDetails true st), [])
            | None => (setIsLoadingDetails true st, details_failed)
            end
          else (setIsLoadingDetails true st, details_failed)
      | NetworkError => (setIsLoadingDetails true st, details_failed)
      end in
    (setIsLoadingDetails false st',
     CardFetch (GET ("/api/hubs/" +:+ hub_name hub)) :: outcome).

Definition handleShowFiles (hub : Hub) (res : FetchResult) (st : State)
    : State * list CardEvent :=
  let '(st', events) :=
    if negb (showFiles st) && negb (truthy (hubDetails st))
    then fetchHubDetails hub res st
    else (st, []) in
  (setShowFiles (negb (showFiles st)) st', events).

(** Successive clicks on the files button, each in the render of the state
    the click before left; the i-th element of [results] tells how a request
    of the i-th click settles. *)
Fixpoint clicks (hub : Hub) (results : list FetchResult) (st : State)
    : State * list CardEvent :=
  match results with
  | res :: rest =>
      let '(st1, events1) := handleShowFiles hub res st in
      let '(st2, events2) := clicks hub rest st1 in
      (st2, events1 ++ events2)
  | [] => (st, [])
  end.

(** [handleDelete]; [confirmed] is the answer to the [confirm] dialog. *)
Definition handleDelete (hub : Hub) (confirmed : bool) (res : FetchResult)
    : list CardEvent :=
  if negb confirmed then []
  else
    CardFetch {| url := "/api/hubs/" +:+ hub_name hub; method := "DELETE";
                 payload := NoBody |} ::
    match res with
    | Responded response =>
        if ok response then
          [CardToast (ToastSuccess (VStr "Hub deleted successfully")); CardOnUpdate]
        else
          match error ← body response; card_error_message "Delete failed" error with
          | Some errorMessage => [CardToast (ToastError errorMessage)]
          | None => [CardToast (ToastError (VStr "Delete failed"))]
          end
    | NetworkError => [CardToast (ToastError (VStr "Delete failed"))]
    end.

(** The request for the details was answered, ok, with a JSON body. *)
Definition delivered (res : FetchResult) : bool :=
  match res with
  | Responded response => ok response && bool_decide (is_Some (body response))
  | NetworkError => false
  end.

Definition card_fetches (tr : list CardEvent) : list Request :=
  omap (λ e, match e with CardFetch req => Some req | _ => None end) tr.

Definition is_update (e : CardEvent) : bool :=
  match e with CardOnUpdate => true | _ => false end.

(** The calls of [onUpdate]. *)
Definition card_updates (tr : list CardEvent) : list CardEvent := filter is_update tr.

End Card.
End HubCard.

(** ** DashboardPage: the statistics *)

Module DashboardPage.
Section Dashboard.
Context `{JsNumber}.

(** What [loadedHubs] holds: the number [data.count] of an answer, or
    whatever else the answer held in its place, [undefined] when it had no
    [count]. *)
Inductive Counted :=
| Number (n : Z)
| NotNumber (v : value).

Record DashboardStats := {
  totalHubs : Z;
  totalFiles : Z;
  loadedHubs : Counted;
  sharepointHubs : Z
}.

(** The JSON values that are not arrays. *)
Inductive NoArray :=
| NoArrayUndefined
| NoArrayNull
| NoArrayBool (b : bool)
| NoArrayNum (n : number)
| NoArrayStr (s : string)
| NoArrayObj (fields : list (string * value)).

(** What [hubs] holds: an array of hubs, as the interface [Hub] types them,
    or the value [data.hubs] of an answer without such an array. *)
Inductive Hubs :=
| HubList (hubsData : list Hub)
| NoList (v : NoArray).

(** The state the statistics depend on ([showCreateModal] is left out). *)
Record State := {
  hubs : Hubs;
  loading : bool;
  refreshing : bool;
  stats : DashboardStats
}.

Definition first_stats : DashboardStats :=
  {| totalHubs := 0; totalFiles := 0; loadedHubs := Number 0; sharepointHubs := 0 |}.

Definition initial : State :=
  {| hubs := HubList []; loading := true; refreshing := false; stats := first_stats |}.

Definition setHubs (l : Hubs) (st : State) : State :=
  {| hubs := l; loading := loading st; refreshing := refreshing st; stats := stats st |}.
Definition setLoading (b : bool) (st : State) : State :=
  {| hubs := hubs st; loading := b; refreshing := refreshing st; stats := stats st |}.
Definition setRefreshing (b : bool) (st : State) : State :=
  {| hubs := hubs st; loading := loading st; refreshing := b; stats := stats st |}.
Definition setStats (s : DashboardStats) (st : State) : State :=
  {| hubs := hubs st; loading := loading st; refreshing := refreshing st; stats := s |}.

(** [calculateStats], as the new value of [stats]; [stats] is the one of the
    render the function belongs to. *)
Definition calculateStats (stats : DashboardStats) (hubsData : list Hub) : DashboardStats :=
  let totalFiles := foldl (λ sum hub, sum + file_count hub) 0 hubsData in
  let sharepointHubs := length (filter (λ hub, sharepoint_linked hub) hubsData) in
  {| totalHubs := Z.of_nat (length hubsData);
     totalFiles := totalFiles;
     loadedHubs := loadedHubs stats;   (* Keep existing loaded count *)
     sharepointHubs := Z.of_nat sharepointHubs |}.

(** [fetchHubs] is memoized with an empty dependency list: the function every
    caller runs is the one of the first render, and the [calculateStats] it
    calls is the one of that render, which reads [first_stats].  The function
    is given here in two parts, up to its [fetch] and from the moment the
    answer is there.  [data] is [data.hubs]; it is [None] when there is nothing
    to read it from: the request fails, the response is not ok, or its body is
    not JSON or is [null]. *)
Definition fetchHubs_begin (showLoading : bool) (st : State) : State :=
  if showLoading then setLoading true st else st.

Definition fetchHubs_failed : list Toast := [ToastError (VStr "Failed to load hubs")].

Definition fetchHubs_settle (showLoading : bool) (data : option Hubs) (st : State)
    : State * list Toast :=
  let '(st', toasts) :=
    match data with
    | Some (HubList hubsData) =>
        (setStats (calculateStats first_stats hubsData) (setHubs (HubList hubsData) st), [])
    | Some (NoList v) =>
        (* [setHubs(data.hubs)] has run when [hubsData.reduce] throws *)
        (setHubs (NoList v) st, fetchHubs_failed)
    | None => (st, fetchHubs_failed)
    end in
  (if showLoading then setLoading false st' else st', toasts).

(** [fetchStats] from the moment the answer is there: [count] is
    [data.count], [None] when there is nothing to read it from (the request
    fails, the response is not ok, or its body is not JSON).  A body [null] is
    left out: the updater reads [data.count] when React runs it, outside the
    [try], and would throw there.
    [setStats(prev => ({ ...prev, loadedHubs: data.count }))] *)
Definition fetchStats_settle (count : option Counted) (st : State) : State :=
  match count with
  | Some c =>
      setStats {| totalHubs := totalHubs (stats st); totalFiles := totalFiles (stats st);
                  loadedHubs := c; sharepointHubs := sharepointHubs (stats st) |} st
  | None => st
  end.

(** The two requests run side by side; which answer comes first is up to the
    network. *)
Inductive Order := hubs_first | stats_first.

Definition settle_both (showLoading : bool) (order : Order) (data : option Hubs)
    (count : option Counted) (st : State) : State * list Toast :=
  match order with
  | hubs_first =>
      let '(st', toasts) := fetchHubs_settle showLoading data st in
      (fetchStats_settle count st', toasts)
  | stats_first => fetchHubs_settle showLoading data (fetchStats_settle count st)
  end.

(** The effect run on mount: [fetchHubs(); fetchStats()]. *)
Definition mountEffect (order : Order) (data : option Hubs) (count : option Counted)
    (st : State) : State * list Toast :=
  settle_both true order data count (fetchHubs_begin true st).

(** [handleRefresh]: [await Promise.all([fetchHubs(false), fetchStats()])]
    between the two settings of [refreshing]. *)
Definition handleRefresh (order : Order) (data : option Hubs) (count : option Counted)
    (st : State) : State * list Toast :=
  let '(st', toasts) :=
    settle_both false order data count (fetchHubs_begin false (setRefreshing true st)) in
  (setRefreshing false st', toasts ++ [ToastSuccess (VStr "Dashboard refreshed")]).

End Dashboard.
End DashboardPage.

(** ** CreateHubModal: the two steps and the submission *)

(** [Array.prototype.filter] with a callback that reads the index. *)
Fixpoint filter_index {A} (keep : A → nat → bool) (i : nat) (l : list A) : list A :=
  match l with
  | x :: l' => (if keep x i then [x] else []) ++ filter_index keep (S i) l'
  | [] => []
  end.

Module CreateHubModal.
Section Modal.
Context `{JsNumber}.

Inductive Step := auth | create.
Inductive Tab := sharepoint | upload.

Record Form := { hub_name : string; sharepoint_link : string; auto_sync : bool }.

Record State := {
  currentStep : Step;
  adminPassword : string;
  activeTab : Tab;
  formData : Form;
  uploadedFiles : list File
}.

Definition initial : State :=
  {| currentStep := auth; adminPassword := EmptyString; activeTab := sharepoint;
     formData := {| hub_name := EmptyString; sharepoint_link := EmptyString;
                    auto_sync := false |};
     uploadedFiles := [] |}.

Inductive ModalEvent :=
| SetIsVerifying (b : bool)
| SetCurrentStep (s : Step)
| SetIsSubmitting (b : bool)
| ModalToast (t : Toast)
| OnCreate (data : HubData).

Definition handleAdminAuth (adminPassword : string) : list ModalEvent :=
  [SetIsVerifying true] ++
  (* Check admin password *)
  (if bool_decide (adminPassword = "Priyojit")
   then [SetCurrentStep create; ModalToast (ToastSuccess (VStr "Admin access granted"))]
   else [ModalToast (ToastError (VStr "Invalid admin password"))]) ++
  [SetIsVerifying false].

(** [prev.filter((_, i) => i !== index)] *)
Definition removeFile (index : nat) (prev : list File) : list File :=
  filter_index (λ _ i, negb (i =? index)%nat) 0 prev.

(** The [FormData] of the upload tab: the name, then every pending file. *)
Definition uploadData (formData : Form) (uploadedFiles : list File)
    : list (string * FormEntry) :=
  [("hub_name", FormText (hub_name formData))] ++
  map (λ file, ("files", FormFile file)) uploadedFiles.

Definition link_data (formData : Form) : value :=
  VObj [("hub_name", VStr (hub_name formData));
        ("sharepoint_link", VStr (sharepoint_link formData));
        ("auto_sync", VBool (auto_sync formData))].

(** [handleSubmit]; [fulfilled] tells whether the promise of [onCreate] is
    fulfilled (a rejection goes to the [catch] block). *)
Definition handleSubmit (activeTab : Tab) (formData : Form) (uploadedFiles : list File)
    (fulfilled : bool) : list ModalEvent :=
  let caught := when (negb fulfilled) [ModalToast (ToastError (VStr "Failed to create hub"))] in
  [SetIsSubmitting true] ++
  match activeTab with
  | sharepoint =>
      if negb (nonempty (hub_name formData)) || negb (nonempty (sharepoint_link formData))
      then [ModalToast (ToastError (VStr "Please fill in all required fields"))]
      else OnCreate (LinkData (link_data formData)) :: caught
  | upload =>
      if negb (nonempty (hub_name formData)) || (length uploadedFiles =? 0)%nat
      then [ModalToast (ToastError (VStr "Please provide a hub name and upload files"))]
      else OnCreate (UploadData (uploadData formData uploadedFiles)) :: caught
  end ++
  [SetIsSubmitting false].

(** What the user can do with the dialog.  The password field and its form
    are rendered in the step [auth] only; the tabs, the creation form and the
    Back button in the step [create] only; the link field and the check box
    on the tab [sharepoint], the drop zone and the file list on the tab
    [upload]. *)
Inductive Action :=
| TypePassword (text : string)
| Authenticate
| SelectTab (tab : Tab)
| TypeHubName (text : string)
| TypeLink (text : string)
| CheckAutoSync (checked : bool)
| Drop (acceptedFiles rejectedFiles : list File)
| Remove (index : nat)
| Back
| Submit (fulfilled : bool).

Definition setCurrentStep (s : Step) (st : State) : State :=
  {| currentStep := s; adminPassword := adminPassword st; activeTab := activeTab st;
     formData := formData st; uploadedFiles := uploadedFiles st |}.
Definition setAdminPassword (s : string) (st : State) : State :=
  {| currentStep := currentStep st; adminPassword := s; activeTab := activeTab st;
     formData := formData st; uploadedFiles := uploadedFiles st |}.
Definition setActiveTab (t : Tab) (st : State) : State :=
  {| currentStep := currentStep st; adminPassword := adminPassword st; activeTab := t;
     formData := formData st; uploadedFiles := uploadedFiles st |}.
Definition setFormData (f : Form) (st : State) : State :=
  {| currentStep := currentStep st; adminPassword := adminPassword st;
     activeTab := activeTab st; formData := f; uploadedFiles := uploadedFiles st |}.
Definition setUploadedFiles (l : list File) (st : State) : State :=
  {| currentStep := currentStep st; adminPassword := adminPassword st;
     activeTab := activeTab st; formData := formData st; uploadedFiles := l |}.

(** The state setters among the events of a handler. *)
Definition apply_event (e : ModalEvent) (st : State) : State :=
  match e with
  | SetCurrentStep s => setCurrentStep s st
  | _ => st
  end.

Definition act (a : Action) (st : State) : State * list ModalEvent :=
  match currentStep st, a with
  | auth, TypePassword text => (setAdminPassword text st, [])
  | auth, Authenticate =>
      let events := handleAdminAuth (adminPassword st) in
      (foldl (λ s e, apply_event e s) st events, events)
  | create, SelectTab tab => (setActiveTab tab st, [])
  | create, TypeHubName text =>
      (setFormData {| hub_name := text; sharepoint_link := sharepoint_link (formData st);
                      auto_sync := auto_sync (formData st) |} st, [])
  | create, TypeLink text =>
      match activeTab st with
      | sharepoint =>
          (setFormData {| hub_name := hub_name (formData st); sharepoint_link := text;
                          auto_sync := auto_sync (formData st) |} st, [])
      | upload => (st, [])
      end
  | create, CheckAutoSync checked =>
      match activeTab st with
      | sharepoint =>
          (setFormData {| hub_name := hub_name (formData st);
                          sharepoint_link := sharepoint_link (formData st);
                          auto_sync := checked |} st, [])
      | upload => (st, [])
      end
  | create, Drop acceptedFiles rejectedFiles =>
      match activeTab st with
      | upload =>
          let '(files, toasts) := onDrop acceptedFiles rejectedFiles (uploadedFiles st) in
          (setUploadedFiles files st, map ModalToast toasts)
      | sharepoint => (st, [])
      end
  | create, Remove index =>
      match activeTab st with
      | upload => (setUploadedFiles (removeFile index (uploadedFiles st)) st, [])
      | sharepoint => (st, [])
      end
  | create, Back => (setCurrentStep auth st, [])
  | create, Submit fulfilled =>
      (st, handleSubmit (activeTab st) (formData st) (uploadedFiles st) fulfilled)
  | _, _ => (st, [])
  end.

Fixpoint run (actions : list Action) (st : State) : State * list ModalEvent :=
  match actions with
  | a :: rest =>
      let '(st1, events1) := act a st in
      let '(st2, events2) := run rest st1 in
      (st2, events1 ++ events2)
  | [] => (st, [])
  end.

(** No text typed into the password field is the admin password. *)
Definition wrong_passwords (actions : list Action) : bool :=
  forallb (λ a, match a with
                | TypePassword text => negb (bool_decide (text = "Priyojit"))
                | _ => true
                end) actions.

(** Whether the creation form is filled in as [handleSubmit] requires. *)
Definition filled_in (activeTab : Tab) (formData : Form) (uploadedFiles : list File) : bool :=
  nonempty (hub_name formData) &&
  match activeTab with
  | sharepoint => nonempty (sharepoint_link formData)
  | upload => negb (length uploadedFiles =? 0)%nat
  end.

(** The arguments of the calls of [onCreate]. *)
Definition created (events : list ModalEvent) : list HubData :=
  omap (λ e, match e with OnCreate data => Some data | _ => None end) events.

(** The files of a [FormData]. *)
Definition form_files (entries : list (string * FormEntry)) : list File :=
  omap (λ e, match e.2 with FormFile f => Some f | FormText _ => None end) entries.

(** Every file is within the ceiling of the drop zone. *)
Definition within_limit (files : list File) : Prop := Forall (λ f, size f ≤ maxSize) files.

Definition data_within_limit (data : HubData) : Prop :=
  match data with
  | UploadData entries => within_limit (form_files entries)
  | LinkData _ => True
  end.

(** What the dashboard does with a submission: [onCreate] is
    [handleCreateHub], whose promise is always fulfilled; [res] tells how its
    request settles. *)
Definition submit (JSON_stringify : value → string) (activeTab : Tab) (formData : Form)
    (uploadedFiles : list File) (res : FetchResult) : list DashEvent :=
  created (handleSubmit activeTab formData uploadedFiles true) ≫=
    (λ data, handleCreateHub JSON_stringify data res).

End Modal.
End CreateHubModal.

Definition dash_fetches `{JsNumber} (tr : list DashEvent) : list Request :=
  omap (λ e, match e with DashFetch req => Some req | _ => None end) tr.

(** ** The session guards of the two pages *)

(** A mount of one of the two guarded pages. *)
Inductive GuardedPage :=
| DashboardMount (navigationType : option NavigationType)
| ChatMount.

Definition mountGuard (page : GuardedPage) (now : Z) (ls : gmap string string)
    : gmap string string * option string :=
  match page with
  | DashboardMount navigationType => dashboardGuard now navigationType ls
  | ChatMount => chatGuard now ls
  end.

(** Whether a mount that comes [elapsed] milliseconds after the stamp ends
    the session. *)
Definition logs_out_after (page : GuardedPage) (elapsed : Z) : bool :=
  match page with
  | DashboardMount (Some reload) | ChatMount => 3000 <? elapsed
  | DashboardMount _ => false
  end.

(** ** LoginPage and Sidebar: the session entries *)

Module LoginPage.
Section Login.
Context `{JsNumber}.
Variable JSON_stringify : value → string.

Record Credentials := { username : string; password : string }.

Inductive LoginEvent :=
| SetIsLoading (b : bool)
| LoginToast (t : Toast)
| RouterPush (href : string).

Definition accepted (credentials : Credentials) : bool :=
  bool_decide (username credentials = "Pwc_AI") &&
  bool_decide (password credentials = "Pwc@ai1234").

Definition handleSubmit (credentials : Credentials) (ls : gmap string string)
    : gmap string string * list LoginEvent :=
  if accepted credentials then
    (* Store authentication state *)
    (<["justLoggedIn" := "true"]>
       (<["user" := JSON_stringify (VObj [("username", VStr (username credentials))])]>
          (<["isAuthenticated" := "true"]> ls)),
     [SetIsLoading true; LoginToast (ToastSuccess (VStr "Login successful!"));
      RouterPush "/dashboard"; SetIsLoading false])
  else
    (ls,
     [SetIsLoading true;
      LoginToast (ToastError (VStr "Invalid credentials. Please try again."));
      SetIsLoading false]).

End Login.
End LoginPage.

Module Sidebar.

(** [handleLogout]: the new storage and the URL assigned to
    [window.location.href]. *)
Definition handleLogout (ls : gmap string string) : gmap string string * string :=
  (delete "user" (delete "isAuthenticated" ls), "/login").

End Sidebar.

(** ** The earlier chat page

    The page of [frontend/frontend/app/dashboard/chat]: the same component
    before retries, connection status and persistence were added.  Its state is
    a part of [ChatState]; the other fields are never written. *)

Module EarlierChatPage.
Section Page.
Context `{JsNumber}.
Variable env : Env.

Definition sorry_text : string :=
  "Sorry, I encountered an error while processing your request.".

(** [const errorMessage = { id: (Date.now() + 1).toString(), ... }] and its
    [setMessages]. *)
Definition appendSorry : M unit :=
  now ← Date_now env;
  date ← Date_now env;
  set (AppendMessage {| msg_id := pretty (now + 1); role := assistant;
                        content := VStr sorry_text; timestamp := date;
                        sources := VUndefined |}).

Definition loadHub (r : ChatState) : M unit :=
  if negb (nonempty (selectedHub r)) then skip
  else
    res ← fetch env (load_request (selectedHub r));
    match res with
    | Responded response =>
        if ok response then
          toast (ToastSuccess (VStr ("Hub " +:+ dquote +:+ selectedHub r +:+ dquote +:+
                                     " loaded successfully")))
        else
          match error ← body response; get error "detail" with
          | Some detail => toast (ToastError (js_or detail (VStr "Failed to load hub")))
          | None => toast (ToastError (VStr "Failed to load hub"))
          end
    | NetworkError => toast (ToastError (VStr "Failed to load hub"))
    end.

Definition sendMessage_catch : M unit :=
  toast (ToastError (VStr "Failed to send message"));;
  appendSorry.

Definition sendMessage (r : ChatState) : M unit :=
  if negb (nonempty (trim (input r))) || negb (nonempty (selectedHub r)) || isLoading r
  then skip
  else
    now ← Date_now env;
    date ← Date_now env;
    set (AppendMessage (userMessage r now date));;
    set (SetInput EmptyString);;
    set (SetIsLoading true);;
    res ← fetch env (chat_request (content_text r) (selectedHub r));
    match res with
    | Responded response =>
        if ok response then
          match body response with
          | Some data =>
              (* the fields of [assistantMessage], in the order of the literal *)
              now ← Date_now env;
              match get data "answer" with
              | Some answer =>
                  date ← Date_now env;
                  match get data "sources" with
                  | Some srcs =>
                      set (AppendMessage {| msg_id := pretty (now + 1); role := assistant;
                                            content := answer; timestamp := date;
                                            sources := srcs |})
                  | None => sendMessage_catch
                  end
              | None => sendMessage_catch
              end
          | None => sendMessage_catch
          end
        else
          match error ← body response; get error "detail" with
          | Some detail =>
              toast (ToastError (js_or detail (VStr "Failed to get response")));;
              (* Add error message to chat *)
              appendSorry
          | None => sendMessage_catch
          end
    | NetworkError => sendMessage_catch
    end;;
    set (SetIsLoading false).

End Page.
End EarlierChatPage.

(** ** Sample inputs *)

(** Integers as numbers. *)
Definition ZNumber : JsNumber :=
  {| number := Z; number_truthy := λ n, negb (n =? 0); number_to_string := pretty |}.

Module Sample.
#[local] Existing Instance ZNumber.

Definition response (code : Z) (b : option value) : Response :=
  {| status := code; statusText := "status text"; body := b |}.

Definition render : ChatState :=
  {| selectedHub := "B"; previousHub := Some "A"; messages := []; input := "hello";
     isLoading := false; error := None; isHubOperationLoading := false;
     connectionStatus := checking |}.

Definition first_render : ChatState :=
  {| selectedHub := "B"; previousHub := None; messages := []; input := EmptyString;
     isLoading := false; error := None; isHubOperationLoading := false;
     connectionStatus := checking |}.

Definition world (r : ChatState) : World :=
  {| state := r; localStorage := ∅; trace := []; timers := []; fetches := 0; ticks := 0 |}.

(** A world with the chat histories of two hubs. *)
Definition stored : World :=
  {| state := render; localStorage := {[ "chat_B" := "hello"; "chat_A" := "bye" ]};
     trace := []; timers := []; fetches := 0; ticks := 0 |}.

Definition talking : ChatState :=
  {| selectedHub := "B"; previousHub := Some "B";
     messages := [ {| msg_id := "1"; role := user; content := VStr "hello";
                      timestamp := 1; sources := VUndefined |} ];
     input := EmptyString; isLoading := false; error := None;
     isHubOperationLoading := false; connectionStatus := connected |}.

(** A session stamped at time 0, read again at time 5000. *)
Definition session : gmap string string :=
  {[ "lastPageLoad" := "0"; "isAuthenticated" := "true" ]}.

(** A validation error of the backend: a list of objects with a [msg]. *)
Definition invalid : Response :=
  response 422 (Some (VObj [("detail",
     VArr [VObj [("msg", VStr "field required")];
           VObj [("message", VStr "value is not a valid link")]])])).

(** Every request is rejected. *)
Definition offline : Env :=
  {| net := λ _ _, NetworkError; clock := λ n, 1000 * Z.of_nat n |}.

(** Every request is answered with status 503 and a [detail] string. *)
Definition refusal : Response :=
  response 503 (Some (VObj [("detail", VStr "network unreachable")])).
Definition unavailable : Env :=
  {| net := λ _ _, Responded refusal; clock := λ n, 1000 * Z.of_nat n |}.

(** Every request succeeds. *)
Definition online : Env :=
  {| net := λ _ _, Responded (response 200
                     (Some (VObj [("message", VStr "done"); ("answer", VStr "42")])));
     clock := λ n, 1000 * Z.of_nat n |}.

Definition hub : Hub :=
  {| hub_name := "Legal"; hub_status := "ready"; file_count := 2; sharepoint_linked := true |}.

Definition stringify (l : list Message) : string :=
  String.concat ";" (map (λ m, to_string (content m)) l).

Definition mantissa (bytes d : Z) : string := pretty (bytes / d).

Definition batch : list File :=
  [ {| name := "a.pdf"; size := 1024 |};
    {| name := "big.zip"; size := 60 * 1024 * 1024 |};
    {| name := "b.docx"; size := 50 * 1024 * 1024 |} ].


Definition credentials : LoginPage.Credentials :=
  {| LoginPage.username := "Pwc_AI"; LoginPage.password := "Pwc@ai1234" |}.

(** A card whose details have arrived. *)
Definition informed : HubCard.State :=
  {| HubCard.isLoading := false; HubCard.showFiles := false;
     HubCard.hubDetails := VObj [("hub_name", VStr "Legal"); ("files", VArr [])];
     HubCard.isLoadingDetails := false; HubCard.isLoaded := false |}.

(** The answer of [/api/hubs/loaded/list]. *)
Definition loaded_list : Response :=
  response 200 (Some (VObj [("loaded_hubs", VArr (map VStr ["HR"; "Legal"]));
                            ("count", VNum 2)])).

(** A user who does not know the admin password tries to create a hub. *)
Definition attempt : list CreateHubModal.Action :=
  [CreateHubModal.TypePassword "guess"; CreateHubModal.Authenticate;
   CreateHubModal.SelectTab CreateHubModal.upload; CreateHubModal.TypeHubName "Legal";
   CreateHubModal.Drop batch []; CreateHubModal.Submit true].

(** An admin drops the batch, removes the first file and submits. *)
Definition creation : list CreateHubModal.Action :=
  [CreateHubModal.TypePassword "Priyojit"; CreateHubModal.Authenticate;
   CreateHubModal.SelectTab CreateHubModal.upload; CreateHubModal.TypeHubName "Legal";
   CreateHubModal.Drop batch []; CreateHubModal.Remove 0; CreateHubModal.Submit true].

(** A parser that knows the text of one history. *)
Definition parse (s : string) : option (list Message) :=
  if bool_decide (s = stringify (messages talking)) then Some (messages talking) else None.

(** A render whose input holds a space, a no-break space and a line end. *)
Definition spaced : ChatState :=
  {| selectedHub := "B"; previousHub := Some "B"; messages := [];
     input := " " +:+ utf8 [194; 160]%nat +:+ utf8 [10]%nat;
     isLoading := false; error := None; isHubOperationLoading := false;
     connectionStatus := connected |}.

End Sample.

(** * Proofs *)

(** ** Strings *)

Lemma rev_app_append (a b c : string) :
  String.rev_app (a +:+ b) c = String.rev_app b (String.rev_app a c).
Proof.
  revert c. induction a as [|x a IH]; intros c; [done|].
  change (String x a +:+ b) with (String x (a +:+ b)). simpl. apply IH.
Qed.

Lemma rev_append (a b : string) :
  String.rev (a +:+ b) = String.rev_app b (String.rev a).
Proof. apply rev_app_append. Qed.

(** The two rejection notices of the drop zone never have the same text: they
    differ in their second last character. *)
Lemma too_large_not_rejected (m k : nat) : too_large_text m ≠ rejected_text k.
Proof.
  unfold too_large_text, rejected_text. intros E.
  apply (f_equal String.rev) in E. rewrite !rev_append in E.
  simpl in E. discriminate E.
Qed.

Lemma prefix_append (s t : string) : String.prefix s (s +:+ t) = true.
Proof.
  induction s as [|c s IH]; [by destruct t|].
  change (String c s +:+ t) with (String c (s +:+ t)). simpl.
  destruct (ascii_dec c c); [exact IH | done].
Qed.

Lemma str_includes_prefix (s hay : string) :
  String.prefix s hay = true → str_includes s hay = true.
Proof.
  intros Hp.
  assert (str_includes s hay = String.prefix s hay ||
            match hay with String _ hay' => str_includes s hay' | EmptyString => false end)
    as -> by (by destruct hay).
  by rewrite Hp.
Qed.

Lemma str_includes_middle (a s b : string) : str_includes s (a +:+ s +:+ b) = true.
Proof.
  induction a as [|c a IH].
  - change (str_includes s (s +:+ b) = true). apply str_includes_prefix, prefix_append.
  - change (String c a +:+ s +:+ b) with (String c (a +:+ s +:+ b)).
    simpl. rewrite IH. by rewrite orb_true_r.
Qed.

Lemma chat_key_inj : Inj (=) (=) chat_key.
Proof. intros a b E. unfold chat_key in E. by apply (inj (String.app "chat_")) in E. Qed.

(** ** The unit index of [formatFileSize] *)

(** [unit_index] is the floor of the logarithm to base 1024. *)
Lemma unit_index_spec (bytes : Z) :
  1 ≤ bytes →
  0 ≤ unit_index bytes 1024 ∧
  1024 ^ unit_index bytes 1024 ≤ bytes < 1024 ^ (unit_index bytes 1024 + 1).
Proof.
  intros Hb. unfold unit_index.
  change (Z.log2 1024) with 10.
  pose proof (Z.log2_nonneg bytes) as Hl.
  pose proof (Z.log2_spec bytes ltac:(lia)) as [Hlo Hhi].
  pose proof (Z.div_mod (Z.log2 bytes) 10 ltac:(lia)) as Hdm.
  pose proof (Z.mod_pos_bound (Z.log2 bytes) 10 ltac:(lia)) as Hr.
  set (i := Z.log2 bytes / 10) in *.
  assert (0 ≤ i) by (apply Z.div_pos; lia).
  split; [done|].
  change 1024 with (2 ^ 10). rewrite <- !Z.pow_mul_r by lia.
  split.
  - etrans; [|exact Hlo]. apply Z.pow_le_mono_r; lia.
  - eapply Z.lt_le_trans; [exact Hhi|]. apply Z.pow_le_mono_r; lia.
Qed.

(** C10: [formatFileSize] guards the zero case before any logarithm is taken
    and returns [0 Bytes]; for every byte count from 1 up to, but excluding,
    1024^4 the unit index lies within the four units of [sizes], so that the
    lookup finds a unit. *)
Theorem formatFileSize_unit_in_bounds (mantissa : Z → Z → string) (bytes : Z) :
  0 ≤ bytes < 1024 ^ 4 →
  (bytes = 0 → formatFileSize mantissa bytes = "0 Bytes") ∧
  (1 ≤ bytes →
   ∃ i unit,
     i = Z.to_nat (unit_index bytes 1024) ∧
     0 ≤ unit_index bytes 1024 < Z.of_nat (length sizes) ∧
     sizes !! i = Some unit ∧
     1024 ^ Z.of_nat i ≤ bytes < 1024 ^ (Z.of_nat i + 1) ∧
     formatFileSize mantissa bytes = mantissa bytes (1024 ^ Z.of_nat i) +:+ " " +:+ unit).
Proof.
  intros [Hlo Hhi]. split.
  - intros ->. reflexivity.
  - intros Hb.
    destruct (unit_index_spec bytes Hb) as (Hi0 & Hle & Hlt).
    assert (unit_index bytes 1024 < 4) as Hi4.
    { destruct (Z.lt_ge_cases (unit_index bytes 1024) 4) as [|Hge]; [done|].
      exfalso. assert (1024 ^ 4 ≤ 1024 ^ unit_index bytes 1024)
        by (apply Z.pow_le_mono_r; lia). lia. }
    set (i := unit_index bytes 1024) in *.
    assert (∃ unit, sizes !! Z.to_nat i = Some unit) as [unit Hunit].
    { apply lookup_lt_is_Some. simpl. lia. }
    exists (Z.to_nat i), unit. rewrite Z2Nat.id by done.
    repeat split; try done.
    unfold formatFileSize. fold i.
    destruct (bytes =? 0) eqn:E0; [lia|].
    destruct (bytes <? 0) eqn:E1; [lia|].
    destruct (i <? 0) eqn:E2; [lia|].
    by rewrite Hunit.
Qed.

(** The bound is tight: at 1024^4 the lookup leaves the array. *)
Lemma formatFileSize_out_of_bounds (mantissa : Z → Z → string) :
  formatFileSize mantissa (1024 ^ 4) = mantissa (1024 ^ 4) (1024 ^ 4) +:+ " undefined".
Proof. reflexivity. Qed.

Section Facts.
Context `{JsNumber}.

(** ** The drop zone *)

(** C6: of a dropped batch, the files over 50 MB are left out of the pending
    upload list and counted in one notice, which carries their number; the files
    within the ceiling are appended to the pending list in the order of the
    batch. *)
Theorem onDrop_splits_batch {R} (acceptedFiles : list File) (rejectedFiles : list R)
    (uploadedFiles : list File) :
  let n := length (filter (λ file, size file > 50 * 1024 * 1024) acceptedFiles) in
  ∃ added rest,
    (onDrop acceptedFiles rejectedFiles uploadedFiles).1 = uploadedFiles ++ added ∧
    added = filter (λ file, size file ≤ 50 * 1024 * 1024) acceptedFiles ∧
    added `sublist_of` acceptedFiles ∧
    (∀ file, file ∈ added ↔ file ∈ acceptedFiles ∧ size file ≤ 50 * 1024 * 1024) ∧
    (onDrop acceptedFiles rejectedFiles uploadedFiles).2 =
      (if (0 <? n)%nat then [ToastError (VStr (too_large_text n))] else []) ++ rest ∧
    (∀ m, ToastError (VStr (too_large_text m)) ∉ rest).
Proof.
  intros n.
  exists (filter (λ file, size file ≤ maxSize) acceptedFiles).
  unfold onDrop. change (50 * 1024 * 1024) with maxSize in n. fold n.
  set (valid := filter (λ file, size file ≤ maxSize) acceptedFiles).
  set (t2 := when (0 <? length rejectedFiles)%nat
               [ToastError (VStr (rejected_text (length rejectedFiles)))]).
  assert (Ht2 : ∀ m, ToastError (VStr (too_large_text m)) ∉ t2).
  { intros m. unfold t2, when. destruct (0 <? length rejectedFiles)%nat.
    - intros [E|E]%elem_of_cons; [|by apply elem_of_nil in E].
      injection E as E. by apply too_large_not_rejected in E.
    - apply not_elem_of_nil. }
  assert (Hmem : ∀ file, file ∈ valid ↔ file ∈ acceptedFiles ∧ size file ≤ 50 * 1024 * 1024).
  { intros file. unfold valid. rewrite list_elem_of_filter. unfold maxSize. tauto. }
  destruct (0 <? length valid)%nat eqn:Hvalid.
  - exists (t2 ++ [ToastSuccess (VStr (added_text (length valid)))]).
    split_and!; [done | done | apply sublist_filter | done | done |].
    intros m [Hin|Hin]%elem_of_app; [by apply Ht2 in Hin|].
    apply list_elem_of_singleton in Hin. discriminate Hin.
  - exists t2. apply Nat.ltb_ge in Hvalid.
    assert (valid = []) as Hnil by (destruct valid; [done | simpl in Hvalid; lia]).
    split_and!; [| done | apply sublist_filter | done | done | done].
    by rewrite Hnil, app_nil_r.
Qed.

(** ** Error bodies *)

Lemma server_error_includes_status (response : Response) :
  str_includes (pretty (status response)) (server_error_text response) = true.
Proof. apply str_includes_middle. Qed.

Lemma card_item_carried item text : carries item text → card_item item = Some (VStr text).
Proof.
  intros (fields & -> & [[Hmsg Hne]|(Hfalsy & Hmessage & Hne)]); unfold card_item; simpl.
  - rewrite Hmsg. by destruct text.
  - by rewrite Hfalsy, Hmessage.
Qed.

Lemma create_item_carried stringify item text :
  carries item text → create_item stringify item = Some (VStr text).
Proof.
  intros (fields & -> & [[Hmsg Hne]|(Hfalsy & Hmessage & Hne)]); unfold create_item; simpl.
  - rewrite Hmsg. by destruct text.
  - rewrite Hfalsy, Hmessage. by destruct text.
Qed.

Lemma carried_items (f : value → option value) (items : list value) (texts : list string) :
  (∀ item text, carries item text → f item = Some (VStr text)) →
  Forall2 carries items texts →
  ∃ vs, mapM f items = Some vs ∧ map join_element vs = texts.
Proof.
  intros Hf. induction 1 as [|item text items texts Hc _ (vs & Hvs & Hmap)].
  - by exists [].
  - exists (VStr text :: vs). split.
    + simpl. rewrite (Hf _ _ Hc). simpl. by rewrite Hvs.
    + simpl. by rewrite Hmap.
Qed.

Lemma shaped_detail_truthy detail text : DetailShape detail text → truthy detail = true.
Proof. destruct 1 as [[|??]| |]; done. Qed.

Lemma card_error_message_shape initial error detail text :
  get error "detail" = Some detail → DetailShape detail text →
  card_error_message initial error = Some (VStr text).
Proof.
  intros Hget Hshape. unfold card_error_message. rewrite Hget. simpl.
  rewrite (shaped_detail_truthy _ _ Hshape).
  destruct Hshape as [s Hs|fields s Hmsg Hs|items texts Hitems].
  - done.
  - simpl. rewrite Hmsg. by destruct s.
  - destruct (carried_items _ _ _ card_item_carried Hitems) as (vs & -> & Hmap). simpl.
    unfold join. by rewrite Hmap.
Qed.

Lemma create_error_message_shape stringify error detail text :
  get error "detail" = Some detail → DetailShape detail text →
  create_error_message stringify error = Some (VStr text).
Proof.
  intros Hget Hshape. unfold create_error_message. rewrite Hget. simpl.
  rewrite (shaped_detail_truthy _ _ Hshape).
  destruct Hshape as [s Hs|fields s Hmsg Hs|items texts Hitems].
  - done.
  - simpl. rewrite Hmsg. by destruct s.
  - destruct (carried_items _ _ _ (create_item_carried stringify) Hitems)
      as (vs & -> & Hmap). simpl.
    unfold join. by rewrite Hmap.
Qed.


(** ** The session guard *)

(** The dashboard logs out exactly on a reload that comes more than three
    seconds after the stamp. *)
Lemma dashboardGuard_spec (now : Z) (nav : option NavigationType) (ls : gmap string string) :
  item_truthy (ls !! "justLoggedIn") = false →
  (nav = Some reload ∧ (∃ t, ls !! "lastPageLoad" ≫= parseInt = Some t ∧ 3000 < now - t) →
     dashboardGuard now nav ls = (clear_session ls, Some "/login")) ∧
  (¬ (nav = Some reload ∧ ∃ t, ls !! "lastPageLoad" ≫= parseInt = Some t ∧ 3000 < now - t) →
     dashboardGuard now nav ls = (<["lastPageLoad" := pretty now]> ls, None)).
Proof.
  intros Hflag. unfold dashboardGuard. rewrite Hflag. simpl.
  assert (Hstale : stale now (ls !! "lastPageLoad") = true ↔
           ∃ t, ls !! "lastPageLoad" ≫= parseInt = Some t ∧ 3000 < now - t).
  { unfold stale. destruct (ls !! "lastPageLoad" ≫= parseInt) as [t|].
    - rewrite Z.ltb_lt. split; [eauto|]. by intros (? & [= <-] & ?).
    - split; [done|]. by intros (? & ? & ?). }
  assert (Htruthy : stale now (ls !! "lastPageLoad") = true →
            item_truthy (ls !! "lastPageLoad") = true).
  { unfold stale. destruct (ls !! "lastPageLoad") as [[|c s]|]; simpl; try done. }
  split.
  - intros [-> Hs]. apply Hstale in Hs. rewrite Hs, (Htruthy Hs). done.
  - intros Hn.
    destruct (item_truthy (ls !! "lastPageLoad")); simpl; [|done].
    destruct nav as [[]|]; simpl; try done.
    destruct (stale now (ls !! "lastPageLoad")) eqn:Hs; [|done].
    exfalso. apply Hn. split; [done|]. by apply Hstale.
Qed.

(** The chat page never looks at the navigation entry: a stale stamp is
    enough. *)
Lemma chatGuard_stale (now : Z) (ls : gmap string string) :
  item_truthy (ls !! "justLoggedIn") = false →
  stale now (ls !! "lastPageLoad") = true →
  chatGuard now ls = (clear_session ls, Some "/login").
Proof.
  intros Hflag Hs. unfold chatGuard. rewrite Hflag, Hs.
  assert (item_truthy (ls !! "lastPageLoad") = true) as ->; [|done].
  unfold stale in Hs. by destruct (ls !! "lastPageLoad") as [[|c s]|].
Qed.

(** ** The chat page *)

Section PageFacts.
Variable env : Env.
Variable JSON_stringify : list Message → string.
Variable JSON_parse : string → option (list Message).

(** Symbolic execution of a handler: [run] unfolds the monad and the
    primitive actions, [smash] decides the branch conditions one by one,
    [flatten] brings the trace into the form [old ++ new]. *)
Ltac run :=
  cbv [mbind M_bind mret M_ret skip set toast spawn getItem setItem
       removeItem setTimeout fetch Date_now record put_state put_storage
       put_timers appendAssistant sendMessage_catch loadHub_catch unloadHub_catch
       sendMessage loadHub unloadHub switchHub clearChat since
       state localStorage trace timers fetches ticks fst snd].

Ltac smash :=
  repeat match goal with
  | |- context [match ?x with _ => _ end] =>
      lazymatch x with
      | context [match _ with _ => _ end] => fail
      | _ => destruct x eqn:?; run
      end
  end.

Ltac flatten := rewrite <- ?app_assoc; cbn [app]; rewrite ?drop_app_length.

Lemma since_app w w' new : trace w' = trace w ++ new → since w w' = new.
Proof. unfold since. intros ->. apply drop_app_length. Qed.

(** *** Switching hubs *)

(** C1: when the selection changes from a previously active hub A to another
    hub B, the requests of the switch are, in this order: the unload of A,
    which settles (whatever the outcome) before the load of B is issued, and
    the load of B; the marker of the previously active hub is set to B once,
    after the load has settled, as the last action of the switch. *)
Theorem switchHub_unloads_before_loading (r : ChatState) (w : World) (A B : string) :
  previousHub r = Some A → selectedHub r = B →
  A ≠ EmptyString → B ≠ EmptyString → A ≠ B →
  let i := fetches w in
  let new := since w (switchHub env r w).2 in
  switch_view new =
    [EvFetch i (unload_request A); EvSettled i (net env i (unload_request A));
     EvFetch (S i) (load_request B); EvSettled (S i) (net env (S i) (load_request B));
     EvSet (SetPreviousHub (Some B))] ∧
  last new = Some (EvSet (SetPreviousHub (Some B))).
Proof.
  intros HA HB HAne HBne Hdiff i. subst i.
  destruct w as [st ls tr tm nf nt].
  unfold switchHub. rewrite HA, HB.
  destruct A as [|a A]; [done|]. destruct B as [|b B]; [done|].
  rewrite bool_decide_eq_false_2 by congruence.
  cbn [nonempty negb andb].
  run. rewrite HB. cbn [nonempty negb].
  smash.
  all: flatten.
  all: done.
Qed.

(** Whatever the load does, the switch ends by setting the marker to the
    selected hub. *)
Lemma switchHub_marks_previous (r : ChatState) (w : World) :
  nonempty (selectedHub r) = true → previousHub r ≠ Some (selectedHub r) →
  previousHub (state (switchHub env r w).2) = Some (selectedHub r).
Proof.
  intros Hsel Hprev. destruct w as [st ls tr tm nf nt].
  unfold switchHub. rewrite Hsel, bool_decide_eq_false_2 by done.
  cbn [negb andb]. run. rewrite Hsel. cbn [negb].
  smash. all: done.
Qed.

(** *** Clearing the chat *)

(** C7: clearing the chat while hub X is selected removes the history entry
    of X from the storage and leaves every other entry, in particular the
    history of every other hub, as it was. *)
Theorem clearChat_removes_only_selected (r : ChatState) (w : World) (X : string) :
  selectedHub r = X → X ≠ EmptyString →
  localStorage (clearChat r w).2 = delete (chat_key X) (localStorage w) ∧
  localStorage (clearChat r w).2 !! chat_key X = None ∧
  (∀ Y, Y ≠ X → localStorage (clearChat r w).2 !! chat_key Y = localStorage w !! chat_key Y) ∧
  (∀ k, k ≠ chat_key X → localStorage (clearChat r w).2 !! k = localStorage w !! k).
Proof.
  intros HX Hne. unfold clearChat. rewrite HX.
  destruct X as [|c X]; [done|]. destruct w as [st ls tr tm nf nt]. run.
  split_and!; [done | apply lookup_delete_eq | |].
  - intros Y HY. apply lookup_delete_ne. intros E. by apply chat_key_inj in E.
  - intros k Hk. by apply lookup_delete_ne.
Qed.

(** *** One call of [sendMessage] *)

Lemma should_retry_true rc e : should_retry rc e = Some true → below rc 2 = true.
Proof. unfold should_retry. by destruct (below rc 2). Qed.

Lemma answer_read (response : Response) (answer srcs : value) :
  (data ← body response; a ← get data "answer"; s ← get data "sources"; Some (a, s))
    = Some (answer, srcs) →
  ∃ data, body response = Some data ∧
          get data "answer" = Some answer ∧ get data "sources" = Some srcs.
Proof.
  destruct (body response) as [data|]; simpl; [|done].
  destruct (get data "answer") eqn:Ha; simpl; [|done].
  destruct (get data "sources") eqn:Hs; simpl; [|done].
  intros [= <- <-]. by exists data.
Qed.

(** A call that passes the guard issues one request and then either appends
    one assistant message (the answer of that request, or an error text) and
    leaves the timers alone, or, with an argument below 2, schedules one retry
    and appends no assistant message. *)
Lemma sendMessage_attempt (r : ChatState) (rc : RetryCount) (w : World) :
  can_send r →
  let w' := (sendMessage env r rc w).2 in
  let res := net env (fetches w) (chat_request (content_text r) (selectedHub r)) in
  ∃ tail,
    trace w' = trace w ++ opening env r w ++ tail ∧
    fetches w' = S (fetches w) ∧
    messages (state w') = messages (state w) ++ appended (opening env r w ++ tail) ∧
    ((timers w' = timers w ∧ scheduled tail = [] ∧
      ∃ a, bubbles tail = [a] ∧ last (exchange_view tail) = Some (EvSet (AppendMessage a)) ∧
           (answers res a ∨ reports_error a))
     ∨
     (∃ d, below rc 2 = true ∧
        timers w' = timers w ++ [retry_timer d r (plus_one rc)] ∧
        (d = 2000 ∨ d = 3000) ∧
        scheduled tail = [d] ∧ bubbles tail = [] ∧
        exchange_view tail = [EvSetTimeout d (plus_one rc)])).
Proof.
  intros (Hin & Hsel & Hload) w' res. subst w' res.
  destruct w as [st ls tr tm nf nt].
  unfold sendMessage. rewrite Hin, Hsel, Hload. cbn [negb orb].
  unfold opening. run.
  smash.
  all: flatten.
  all: eexists; split; [reflexivity|]; split; [reflexivity|];
       split; [simpl; by rewrite <- ?app_assoc|].
  all: try (left; split_and!; [done | done |];
            eexists; split_and!; [reflexivity | reflexivity |];
            first [ by right; eexists
                  | left;
                    match goal with
                    | Hread : _ = Some (_, _) |- _ =>
                        apply answer_read in Hread as (data & ? & ? & ?)
                    end;
                    eexists _, _; split_and!; [reflexivity | eassumption..] ]).
  all: right; eexists; split_and!;
         [ first [done | by eapply should_retry_true]
         | reflexivity | first [by left | by right] | done | done | done ].
Qed.

Lemma retried_keyword_decision rc s :
  str_includes "network" s || str_includes "connection" s = true →
  js_or (VStr s) (VStr "Failed to get response") = VStr s ∧
  should_retry rc (VStr s) = Some (below rc 2).
Proof.
  intros Hkey. split.
  - destruct s; [done|]. reflexivity.
  - unfold should_retry. destruct (below rc 2); [|done]. simpl.
    destruct (str_includes "network" s); [done|]. simpl in *. by rewrite Hkey.
Qed.

(** A retried failure met with a retry count below 2: the retry is scheduled
    with the delay of the failure. *)
Lemma sendMessage_retried (r : ChatState) (rc : RetryCount) (w : World) (d : Z) :
  can_send r →
  RetriedFailure (net env (fetches w) (chat_request (content_text r) (selectedHub r))) d →
  below rc 2 = true →
  let w' := (sendMessage env r rc w).2 in
  ∃ tail,
    trace w' = trace w ++ opening env r w ++ tail ∧
    timers w' = timers w ++ [retry_timer d r (plus_one rc)] ∧
    fetches w' = S (fetches w) ∧
    retry_view tail = [EvSetTimeout d (plus_one rc)].
Proof.
  intros (Hin & Hsel & Hload) Hrf Hrc w'. subst w'.
  destruct w as [st ls tr tm nf nt]. simpl in Hrf.
  unfold sendMessage. rewrite Hin, Hsel, Hload. cbn [negb orb].
  unfold opening. run.
  remember (net env nf (chat_request (content_text r) (selectedHub r))) as res eqn:Hres.
  destruct Hrf as [|response fields s Hok Hbody Hdetail Hkey].
  - rewrite Hrc. run. flatten. eexists. split_and!; reflexivity.
  - rewrite Hok, Hbody. cbn [option_bind get]. rewrite Hdetail.
    destruct (retried_keyword_decision rc s Hkey) as [-> ->]. rewrite Hrc.
    run. flatten. eexists. split_and!; reflexivity.
Qed.

(** The same failure met with an argument that is not below 2 (a count of 2
    or more, the click event): the error bubble. *)
Lemma sendMessage_exhausted (r : ChatState) (rc : RetryCount) (w : World) (d : Z) :
  can_send r →
  RetriedFailure (net env (fetches w) (chat_request (content_text r) (selectedHub r))) d →
  below rc 2 = false →
  let w' := (sendMessage env r rc w).2 in
  ∃ tail a text,
    trace w' = trace w ++ opening env r w ++ tail ∧
    timers w' = timers w ∧
    retry_view tail = [EvSet (AppendMessage a)] ∧
    role a = assistant ∧ content a = VStr ("Error: " +:+ text).
Proof.
  intros (Hin & Hsel & Hload) Hrf Hrc w'. subst w'.
  destruct w as [st ls tr tm nf nt]. simpl in Hrf.
  unfold sendMessage. rewrite Hin, Hsel, Hload. cbn [negb orb].
  unfold opening. run.
  remember (net env nf (chat_request (content_text r) (selectedHub r))) as res eqn:Hres.
  destruct Hrf as [|response fields s Hok Hbody Hdetail Hkey].
  - rewrite Hrc. run. flatten. eexists _, _, _. split_and!; reflexivity.
  - rewrite Hok, Hbody. cbn [option_bind get]. rewrite Hdetail.
    destruct (retried_keyword_decision rc s Hkey) as [-> ->]. rewrite Hrc.
    run. flatten. eexists _, _, _. split_and!; reflexivity.
Qed.

(** *** Reading traces piecewise *)

Lemma appended_app l1 l2 : appended (l1 ++ l2) = appended l1 ++ appended l2.
Proof. apply omap_app. Qed.

Lemma bubbles_app l1 l2 : bubbles (l1 ++ l2) = bubbles l1 ++ bubbles l2.
Proof. unfold bubbles. by rewrite appended_app, filter_app. Qed.

Lemma scheduled_app l1 l2 : scheduled (l1 ++ l2) = scheduled l1 ++ scheduled l2.
Proof. apply omap_app. Qed.

Lemma exchange_view_app l1 l2 :
  exchange_view (l1 ++ l2) = exchange_view l1 ++ exchange_view l2.
Proof. apply filter_app. Qed.

Lemma retry_view_app l1 l2 : retry_view (l1 ++ l2) = retry_view l1 ++ retry_view l2.
Proof. apply filter_app. Qed.

Lemma retry_view_opening r w : retry_view (opening env r w) = [].
Proof. reflexivity. Qed.

Lemma bubble_is_assistant l a : bubbles l = [a] → role a = assistant.
Proof.
  intros Hb. assert (a ∈ bubbles l) as Hin by (rewrite Hb; apply list_elem_of_here).
  apply list_elem_of_filter in Hin as [Ha _]. unfold is_assistant in Ha.
  by destruct (role a).
Qed.

Lemma scheduled_retry_view l : scheduled (retry_view l) = scheduled l.
Proof.
  induction l as [|e l IH]; [done|].
  unfold retry_view in *. rewrite filter_cons.
  case_decide as He; simpl; rewrite ?IH; [done|].
  destruct e; try done.
Qed.

(** *** The event loop *)

Lemma below_plus_one rc n :
  below rc (2 - S n) = false → below (plus_one rc) (2 - n) = false.
Proof.
  destruct rc as [k|]; simpl; [|done].
  rewrite !Nat.ltb_ge. lia.
Qed.

Lemma runRetries_idle pending n w :
  (length (timers w) ≤ pending)%nat → runRetries env pending n w = ((), w).
Proof.
  intros Hidle. destruct n; [done|]. simpl. unfold mbind, M_bind, fireTimerAt.
  by rewrite lookup_ge_None_2.
Qed.

Lemma runRetries_fire n w old t :
  timers w = old ++ [t] →
  runRetries env (length old) (S n) w =
    runRetries env (length old) n
      (sendMessage env (timer_render t) (timer_retryCount t) (fired t old w)).2.
Proof.
  intros Hone. simpl. unfold mbind, M_bind, fireTimerAt.
  by rewrite Hone, list_lookup_middle, delete_middle, app_nil_r.
Qed.

Lemma exchange_unfold r rc w :
  exchange env r rc w = runRetries env (length (timers w)) 2 (sendMessage env r rc w).2.
Proof. unfold exchange, mbind, M_bind. by destruct (sendMessage env r rc w). Qed.

(** A call of [sendMessage] followed by as many firings of its retry timer as
    its argument still allows ends with the timers as they were and exactly one
    assistant message, which comes last; by induction on the number of
    firings. *)
Lemma retries_resolve (r : ChatState) (n : nat) :
  can_send r → ∀ rc w,
  below rc (2 - n) = false →
  let w' := (runRetries env (length (timers w)) n (sendMessage env r rc w).2).2 in
  let req := chat_request (content_text r) (selectedHub r) in
  ∃ rest,
    trace w' = trace w ++ opening env r w ++ rest ∧
    timers w' = timers w ∧
    messages (state w') = messages (state w) ++ appended (opening env r w ++ rest) ∧
    (∃ a, bubbles rest = [a] ∧ last (exchange_view rest) = Some (EvSet (AppendMessage a)) ∧
          ((∃ k, (k ≤ n)%nat ∧ answers (net env (fetches w + k) req) a) ∨ reports_error a)) ∧
    (length (scheduled rest) ≤ n)%nat ∧
    Forall (λ d, d = 2000 ∨ d = 3000) (scheduled rest).
Proof.
  intros Hsend. induction n as [|n IH]; intros rc w Hbudget.
  - destruct (sendMessage_attempt r rc w Hsend) as (tail & Htr & _ & Hmsg & Hout).
    destruct Hout as [(Htm & Hsched & a & Hb & Hlast & Hreply)|(d & Hrc & _)];
      [|simpl in Hbudget; congruence].
    exists tail. simpl. rewrite Htm, Hsched. split_and!; try done; try (simpl; lia).
    exists a. split_and!; [done | done |].
    destruct Hreply as [Hans|Herr]; [left|by right].
    exists 0%nat. by rewrite Nat.add_0_r.
  - destruct (sendMessage_attempt r rc w Hsend) as (tail & Htr & Hfetch & Hmsg & Hout).
    destruct Hout as [(Htm & Hsched & a & Hb & Hlast & Hreply)
                     |(d & Hrc & Htm & Hd & Hsched & Hbubble & Hview)].
    + exists tail. rewrite runRetries_idle by (rewrite Htm; lia). simpl.
      rewrite Htm, Hsched. split_and!; try done; try (simpl; lia).
      exists a. split_and!; [done | done |].
      destruct Hreply as [Hans|Herr]; [left|by right].
      exists 0%nat. rewrite Nat.add_0_r. split; [lia | done].
    + rewrite (runRetries_fire _ _ _ _ Htm).
      set (w1 := fired (retry_timer d r (plus_one rc)) (timers w) (sendMessage env r rc w).2).
      assert (fetches w1 = S (fetches w)) as Hfetch1 by exact Hfetch.
      assert (timers w1 = timers w) as Htm1 by done.
      pose proof (IH (plus_one rc) w1 (below_plus_one _ _ Hbudget)) as IH1.
      rewrite Htm1 in IH1.
      destruct IH1 as (rest & Htr' & Htm' & Hmsg' & (a & Hb & Hlast & Hreply) & Hlen & Hall).
      exists (tail ++ [EvTimerFired d (plus_one rc)] ++ opening env r w1 ++ rest).
      simpl retry_timer in *. simpl timer_render in *. simpl timer_retryCount in *.
      split_and!.
      * rewrite Htr'. unfold w1, fired. simpl. rewrite Htr.
        by rewrite <- !app_assoc.
      * done.
      * rewrite Hmsg'. unfold w1, fired. simpl. rewrite Hmsg.
        rewrite !appended_app. by rewrite <- !app_assoc.
      * exists a. split_and!.
        -- rewrite !bubbles_app, Hbubble, Hb. done.
        -- rewrite !exchange_view_app, !last_app, Hlast. done.
        -- destruct Hreply as [(k & Hk & Hans)|Herr]; [left|by right].
           exists (S k). split; [lia|].
           rewrite Hfetch1 in Hans. by rewrite Nat.add_succ_r.
      * rewrite !scheduled_app, !length_app, Hsched. simpl. lia.
      * rewrite !scheduled_app, Hsched. simpl. by constructor.
Qed.

(** A retried failure met with an argument below 2, then the timer: the loop
    goes on with the next call, in a world with the timers as they were. *)
Lemma retry_step (r : ChatState) (rc : RetryCount) (n : nat) (w : World) (d : Z) :
  can_send r →
  RetriedFailure (net env (fetches w) (chat_request (content_text r) (selectedHub r))) d →
  below rc 2 = true →
  ∃ tail w1,
    runRetries env (length (timers w)) (S n) (sendMessage env r rc w).2
      = runRetries env (length (timers w1)) n (sendMessage env r (plus_one rc) w1).2 ∧
    trace w1 = trace w ++ opening env r w ++ tail ++ [EvTimerFired d (plus_one rc)] ∧
    timers w1 = timers w ∧ fetches w1 = S (fetches w) ∧
    retry_view tail = [EvSetTimeout d (plus_one rc)].
Proof.
  intros Hsend Hrf Hrc.
  destruct (sendMessage_retried r rc w d Hsend Hrf Hrc) as (tail & Htr & Htm & Hf & Hv).
  exists tail, (fired (retry_timer d r (plus_one rc)) (timers w) (sendMessage env r rc w).2).
  split_and!; [exact (runRetries_fire _ _ _ _ Htm) | | done | exact Hf | exact Hv].
  unfold fired. simpl. rewrite Htr. by rewrite <- !app_assoc.
Qed.

(** *** A whole exchange *)



(** *** The stored histories *)

Local Abbreviation nonempty_histories := (histories_nonempty JSON_stringify).

Lemma histories_delete k ls : nonempty_histories ls → nonempty_histories (delete k ls).
Proof.
  intros Hls hub v Hv. apply lookup_delete_Some in Hv as [_ Hv]. by eapply Hls.
Qed.

Lemma histories_save hub l ls :
  l ≠ [] → nonempty_histories ls →
  nonempty_histories (<[chat_key hub := JSON_stringify l]> ls).
Proof.
  intros Hl Hls hub' v Hv. apply lookup_insert_Some in Hv as [[_ <-]|[_ Hv]].
  - by exists l.
  - by eapply Hls.
Qed.

Lemma histories_stamp v ls :
  nonempty_histories ls → nonempty_histories (<["lastPageLoad" := v]> ls).
Proof.
  intros Hls hub v' Hv. apply lookup_insert_Some in Hv as [[Hk _]|[_ Hv]].
  - discriminate Hk.
  - by eapply Hls.
Qed.

Lemma sendMessage_storage r rc w : localStorage (sendMessage env r rc w).2 = localStorage w.
Proof. destruct w. run. smash. all: done. Qed.

Lemma unloadHub_storage r hubName w :
  localStorage (unloadHub env r hubName w).2 = localStorage w ∨
  (selectedHub r = hubName ∧
   localStorage (unloadHub env r hubName w).2 = delete (chat_key hubName) (localStorage w)).
Proof.
  destruct w. run. smash. all: auto.
  all: right; split; [by eapply bool_decide_eq_true_1 | done].
Qed.

Lemma switchHub_storage r w :
  localStorage (switchHub env r w).2 = localStorage w ∨
  ∃ hubName, localStorage (switchHub env r w).2 = delete (chat_key hubName) (localStorage w).
Proof. destruct w. run. smash. all: eauto. Qed.

Lemma chatGuard_histories now ls :
  nonempty_histories ls → nonempty_histories (chatGuard now ls).1.
Proof.
  intros Hls. unfold chatGuard, clear_session.
  repeat case_match; simpl; eauto using histories_delete, histories_stamp.
Qed.

Lemma fireTimer_storage w : localStorage (fireTimer env w).2 = localStorage w.
Proof.
  unfold fireTimer. destruct (timers w) as [|t rest]; [done|].
  simpl. by rewrite sendMessage_storage.
Qed.

(** Every action of the page keeps the invariant. *)
Lemma perform_histories a w :
  nonempty_histories (localStorage w) →
  nonempty_histories (localStorage (perform env JSON_stringify JSON_parse a w).2).
Proof.
  intros Hw. destruct a as [|hub|text|r|r|r|r hubName|r|r rc|]; simpl.
  - destruct w as [st ls tr tm nf nt]. unfold guardEffect, run_guard. run.
    pose proof (chatGuard_histories (clock env nt) ls Hw) as Hg.
    destruct (chatGuard _ _). exact Hg.
  - done.
  - done.
  - unfold loadMessagesEffect. run. smash; done.
  - unfold saveMessagesEffect. destruct (_ && _) eqn:Hsave; [|done].
    run. apply histories_save; [|done].
    apply andb_true_iff in Hsave as [Hlen _]. apply Nat.ltb_lt in Hlen.
    intros Hnil. rewrite Hnil in Hlen. simpl in Hlen. lia.
  - destruct (switchHub_storage r w) as [->|[hubName ->]];
      eauto using histories_delete.
  - destruct (unloadHub_storage r hubName w) as [->|[_ ->]];
      eauto using histories_delete.
  - unfold clearChat. run. destruct (nonempty (selectedHub r)); run;
      eauto using histories_delete.
  - by rewrite sendMessage_storage.
  - unfold mbind, M_bind.
    pose proof (fireTimer_storage w) as Hf.
    destruct (fireTimer env w) as [b w1]. simpl in *. by rewrite Hf.
Qed.

(** C9: whatever the page does, every chat history entry of the storage stays
    the serialization of a non-empty message list: the save effect leaves the
    storage alone when no hub is selected or the list is empty, and clearing the
    chat and unloading a hub only ever delete an entry. *)
Theorem stored_histories_nonempty (actions : list Action) (w : World) :
  nonempty_histories (localStorage w) →
  nonempty_histories (localStorage (performAll env JSON_stringify JSON_parse actions w).2) ∧
  (∀ r w0, messages r = [] ∨ selectedHub r = EmptyString →
     localStorage (saveMessagesEffect JSON_stringify r w0).2 = localStorage w0) ∧
  (∀ r w0, selectedHub r ≠ EmptyString →
     localStorage (clearChat r w0).2 = delete (chat_key (selectedHub r)) (localStorage w0)) ∧
  (∀ r hubName w0,
     localStorage (unloadHub env r hubName w0).2 = localStorage w0 ∨
     (selectedHub r = hubName ∧
      localStorage (unloadHub env r hubName w0).2 = delete (chat_key hubName) (localStorage w0))).
Proof.
  intros Hw. split_and!.
  - revert w Hw. induction actions as [|a actions IH]; intros w Hw; [done|].
    simpl. unfold mbind, M_bind.
    pose proof (perform_histories a w Hw) as Ha.
    destruct (perform env JSON_stringify JSON_parse a w) as [[] w1]. by apply IH.
  - intros r w0 Hempty. unfold saveMessagesEffect.
    destruct Hempty as [-> | ->]; [done|]. by rewrite andb_false_r.
  - intros r w0 Hsel. unfold clearChat. destruct (selectedHub r); [done|].
    destruct w0. by run.
  - apply unloadHub_storage.
Qed.

End PageFacts.
End Facts.

(** * Further properties of the code *)

(** ** The time stamp: [now.toString()] read back by [parseInt] *)

Lemma digit_value_pretty_char (d : N) :
  (d < 10)%N → digit_value 10 (pretty_N_char d) = Some (Z.of_N d).
Proof.
  intros Hd.
  assert (d = 0 ∨ d = 1 ∨ d = 2 ∨ d = 3 ∨ d = 4 ∨
          d = 5 ∨ d = 6 ∨ d = 7 ∨ d = 8 ∨ d = 9)%N as Hcases by lia.
  repeat destruct Hcases as [->|Hcases]; try subst d; reflexivity.
Qed.

(** Reading the digits of [x] multiplies the accumulator by a power of ten
    and adds [x]. *)
Lemma parse_digits_pretty_go (x : N) :
  ∃ k : Z, 0 ≤ k ∧ ∀ acc s, (0 < x)%N →
    parse_digits 10 acc (pretty_N_go x s) =
    parse_digits 10 (Some (from_option id 0 acc * 10 ^ k + Z.of_N x)) s.
Proof.
  induction (N.lt_wf_0 x) as [x _ IH].
  destruct (decide (0 < x)%N) as [Hx|Hx]; [|exists 0; split; [done|]; intros; lia].
  pose proof (N.mod_lt x 10 ltac:(lia)) as Hr.
  pose proof (N.div_mod x 10 ltac:(lia)) as Hdm.
  destruct (decide (x `div` 10 = 0)%N) as [Hq|Hq].
  - exists 1. split; [done|]. intros acc s _.
    rewrite pretty_N_go_step, Hq, pretty_N_go_0 by done. simpl.
    rewrite digit_value_pretty_char by done. f_equal. f_equal. lia.
  - destruct (IH (x `div` 10)%N) as (k & Hk & Hgo); [apply N.div_lt; lia|].
    exists (k + 1). split; [lia|]. intros acc s _.
    rewrite pretty_N_go_step, Hgo by lia. simpl.
    rewrite digit_value_pretty_char by done. f_equal. f_equal.
    rewrite Z.pow_add_r by lia. simpl. lia.
Qed.

Lemma parse_digits_pretty (p : positive) :
  parse_digits 10 None (pretty (N.pos p)) = Some (Z.pos p).
Proof.
  destruct (parse_digits_pretty_go (N.pos p)) as (k & _ & Hgo).
  unfold pretty, pretty_N. rewrite decide_False by done.
  rewrite Hgo by lia. simpl. f_equal.
Qed.

(** Stripping leaves a text that does not start with a byte of a white space
    character as it is. *)
Lemma starts_white_space_spec (a : ascii) (rest : string) :
  String a rest ∈ white_space → starts_white_space a = true.
Proof.
  intros Hin. apply existsb_exists. exists (String a rest).
  split; [by apply list_elem_of_In|]. by apply bool_decide_eq_true_2.
Qed.

Lemma strip_keeps (c : ascii) (s : string) :
  starts_white_space c = false → strip white_space (String c s) = String c s.
Proof.
  intros Hc.
  assert (∀ rest, bool_decide (String c rest ∈ white_space) = false) as Hout.
  { intros rest. apply bool_decide_eq_false_2. intros Hin.
    apply starts_white_space_spec in Hin. congruence. }
  cbn [strip]. rewrite Hout. destruct s as [|b s]; [done|].
  rewrite Hout. destruct s as [|d s]; [done|]. by rewrite Hout.
Qed.

(** A text that starts with a decimal digit and does not read as zero is
    read by [parseInt] as a decimal number. *)
Lemma parse_unsigned_decimal (s : string) (v : Z) :
  parse_digits 10 None s = Some v → v ≠ 0 → parse_unsigned s = Some v.
Proof.
  intros Hs Hv. destruct s as [|c1 s]; [done|].
  destruct c1 as [[] [] [] [] [] [] [] []]; try exact Hs.
  destruct s as [|c2 s]; [exact Hs|].
  destruct c2 as [[] [] [] [] [] [] [] []]; try exact Hs.
  all: vm_compute in Hs; congruence.
Qed.

Lemma parseInt_decimal (s : string) (v : Z) :
  parse_digits 10 None s = Some v → v ≠ 0 → parseInt s = Some v.
Proof.
  intros Hs Hv. rewrite <- (parse_unsigned_decimal s v Hs Hv).
  destruct s as [|c s]; [done|]. unfold parseInt, trim_start.
  destruct c as [[] [] [] [] [] [] [] []].
  all: try (rewrite strip_keeps by reflexivity; reflexivity).
  all: vm_compute in Hs; congruence.
Qed.

(** The stamp written by a mount is read back as the time of the mount. *)
Lemma parseInt_pretty (z : Z) : parseInt (pretty z) = Some z.
Proof.
  destruct z as [|p|p]; [done| |].
  - apply parseInt_decimal; [apply parse_digits_pretty | done].
  - change (pretty (Z.neg p)) with (String "-" (pretty (N.pos p))).
    unfold parseInt, trim_start. rewrite strip_keeps by reflexivity.
    change (Z.opp <$> parse_unsigned (pretty (N.pos p)) = Some (Z.neg p)).
    by rewrite (parse_unsigned_decimal _ (Z.pos p) (parse_digits_pretty p)).
Qed.

Lemma pretty_truthy (z : Z) : item_truthy (Some (pretty z)) = true.
Proof.
  pose proof (parseInt_pretty z) as Hz.
  simpl. by destruct (pretty z).
Qed.

Lemma stale_pretty (now now' : Z) : stale now' (Some (pretty now)) = (3000 <? now' - now).
Proof. unfold stale. simpl. by rewrite parseInt_pretty. Qed.

(** ** Sizes beyond the units *)


Section MoreFacts.
Context `{JsNumber}.

(** ** The session: login, the guards of the two pages, logout *)

(** X1: what a mount decides: with the login flag set it lets the user in; without
    it, it ends the session exactly when the stored stamp reads as a number,
    more than three seconds lie between the stamp and the mount, and the page is
    the chat page or the dashboard on a reload.  A missing or unreadable stamp
    never ends the session. *)
Theorem mountGuard_decision (page : GuardedPage) (now : Z) (ls : gmap string string) :
  (mountGuard page now ls).2 =
    if item_truthy (ls !! "justLoggedIn") then None
    else match ls !! "lastPageLoad" ≫= parseInt with
         | Some t => if logs_out_after page (now - t) then Some "/login" else None
         | None => None
         end.
Proof.
  assert (item_truthy (ls !! "lastPageLoad") && stale now (ls !! "lastPageLoad") =
          match ls !! "lastPageLoad" ≫= parseInt with
          | Some t => 3000 <? now - t
          | None => false
          end) as Hstale.
  { unfold stale. destruct (ls !! "lastPageLoad") as [[|c s]|]; try done. }
  destruct page as [nav|]; unfold mountGuard, dashboardGuard, chatGuard, logs_out_after.
  all: destruct (item_truthy (ls !! "justLoggedIn")); [done|].
  - destruct nav as [[]|].
    all: rewrite ?andb_false_r, ?andb_true_r, ?Hstale; simpl.
    all: destruct (ls !! "lastPageLoad" ≫= parseInt) as [t|]; try done.
    all: by destruct (3000 <? now - t).
  - rewrite Hstale. destruct (ls !! "lastPageLoad" ≫= parseInt) as [t|]; [|done].
    by destruct (3000 <? now - t).
Qed.

(** A mount that lets the user in leaves the stamp of its time and no login
    flag. *)
Lemma mountGuard_stamps (page : GuardedPage) (now : Z) (ls : gmap string string) :
  (mountGuard page now ls).2 = None →
  (mountGuard page now ls).1 !! "lastPageLoad" = Some (pretty now) ∧
  item_truthy ((mountGuard page now ls).1 !! "justLoggedIn") = false.
Proof.
  destruct page as [nav|]; unfold mountGuard, dashboardGuard, chatGuard.
  all: destruct (item_truthy (ls !! "justLoggedIn")) eqn:Hflag; simpl.
  all: repeat match goal with
       | |- context [if ?b then _ else _] => destruct b; simpl
       end.
  all: intros Hin; try discriminate Hin.
  all: rewrite lookup_insert_eq, lookup_insert_ne by done.
  all: by rewrite ?lookup_delete_eq.
Qed.

(** X2: two mounts in a row: when a mount of either page at time [now] has let
    the user in, the next mount, at time [now'], ends the session exactly when
    more than three seconds lie between the two and the page mounted is the
    chat page or the dashboard on a reload; otherwise it stamps its own time. *)
Theorem mountGuard_next (page page' : GuardedPage) (now now' : Z) (ls : gmap string string) :
  (mountGuard page now ls).2 = None →
  mountGuard page' now' (mountGuard page now ls).1 =
    if logs_out_after page' (now' - now)
    then (clear_session (mountGuard page now ls).1, Some "/login")
    else (<["lastPageLoad" := pretty now']> (mountGuard page now ls).1, None).
Proof.
  intros Hin. destruct (mountGuard_stamps page now ls Hin) as [Hstamp Hflag].
  generalize dependent (mountGuard page now ls).1. intros ls1 Hstamp Hflag.
  destruct page' as [nav|]; unfold mountGuard, dashboardGuard, chatGuard, logs_out_after.
  all: rewrite Hflag, Hstamp, pretty_truthy, stale_pretty; simpl.
  - destruct nav as [[]|]; simpl; done.
  - done.
Qed.

(** X3: after a login that is accepted, the first mount of either page lets the
    user in whatever the time, the stamp and the kind of navigation: it
    consumes the login flag, stamps its time and keeps the session. *)
Theorem login_then_mount (stringify : value → string) (credentials : LoginPage.Credentials)
    (page : GuardedPage) (now : Z) (ls : gmap string string) :
  LoginPage.accepted credentials = true →
  let ls1 := (LoginPage.handleSubmit stringify credentials ls).1 in
  (mountGuard page now ls1).2 = None ∧
  (mountGuard page now ls1).1 !! "justLoggedIn" = None ∧
  (mountGuard page now ls1).1 !! "lastPageLoad" = Some (pretty now) ∧
  (mountGuard page now ls1).1 !! "isAuthenticated" = Some "true".
Proof.
  intros Hacc ls1. subst ls1. unfold LoginPage.handleSubmit. rewrite Hacc. simpl.
  destruct page as [nav|]; unfold mountGuard, dashboardGuard, chatGuard.
  all: rewrite lookup_insert_eq; simpl.
  all: split_and!; [done | | |].
  all: rewrite ?lookup_insert_eq, ?lookup_insert_ne, ?lookup_delete_eq by done; try done.
  all: by rewrite lookup_delete_ne, lookup_insert_ne, lookup_insert_ne, lookup_insert_eq.
Qed.

(** X4: the guards never read the authentication entries: what a mount decides
    after a logout from the side bar is what it decides without the logout. *)
Theorem mountGuard_ignores_logout (page : GuardedPage) (now : Z) (ls : gmap string string) :
  (mountGuard page now (Sidebar.handleLogout ls).1).2 = (mountGuard page now ls).2.
Proof.
  unfold Sidebar.handleLogout. simpl.
  destruct page as [nav|]; unfold mountGuard, dashboardGuard, chatGuard.
  all: rewrite !lookup_delete_ne by done.
  all: repeat match goal with
       | |- context [if ?b then _ else _] => destruct b; simpl
       end; done.
Qed.

Lemma chat_key_not_session (hub : string) :
  chat_key hub ≠ "isAuthenticated" ∧ chat_key hub ≠ "user" ∧
  chat_key hub ≠ "loadTime" ∧ chat_key hub ≠ "justLoggedIn" ∧
  chat_key hub ≠ "lastPageLoad".
Proof. unfold chat_key. split_and!; discriminate. Qed.

(** X5: a logout, from the side bar or forced by a guard, removes the
    authentication entries and keeps the chat history of every hub. *)
Theorem logout_keeps_histories (ls : gmap string string) (hub : string) :
  (Sidebar.handleLogout ls).1 !! "isAuthenticated" = None ∧
  (Sidebar.handleLogout ls).1 !! "user" = None ∧
  (Sidebar.handleLogout ls).1 !! chat_key hub = ls !! chat_key hub ∧
  clear_session ls !! "isAuthenticated" = None ∧
  clear_session ls !! "user" = None ∧
  clear_session ls !! chat_key hub = ls !! chat_key hub.
Proof.
  destruct (chat_key_not_session hub) as (? & ? & ? & ? & ?).
  unfold Sidebar.handleLogout, clear_session. simpl.
  split_and!.
  - rewrite lookup_delete_ne by done. apply lookup_delete_eq.
  - apply lookup_delete_eq.
  - by rewrite 2!lookup_delete_ne.
  - rewrite 3!lookup_delete_ne by done. apply lookup_delete_eq.
  - rewrite 2!lookup_delete_ne by done. apply lookup_delete_eq.
  - by rewrite 4!lookup_delete_ne.
Qed.

(** ** The creation dialog *)

Lemma filter_index_keeps {A} (index i : nat) (l : list A) :
  (index < i)%nat → filter_index (λ _ j, negb (j =? index)%nat) i l = l.
Proof.
  revert i. induction l as [|x l IH]; intros i Hi; [done|]. simpl.
  rewrite (proj2 (Nat.eqb_neq i index)) by lia. simpl. f_equal. apply IH. lia.
Qed.

Lemma filter_index_removes {A} (index i : nat) (l : list A) :
  (i ≤ index)%nat →
  filter_index (λ _ j, negb (j =? index)%nat) i l =
  take (index - i) l ++ drop (S (index - i)) l.
Proof.
  revert i. induction l as [|x l IH]; intros i Hi; [by rewrite take_nil, drop_nil|].
  simpl. destruct (decide (i = index)) as [->|Hne].
  - rewrite Nat.eqb_refl, Nat.sub_diag. simpl. rewrite drop_0.
    apply filter_index_keeps. lia.
  - rewrite (proj2 (Nat.eqb_neq i index)) by done. simpl.
    replace (index - i)%nat with (S (index - S i)) by lia. simpl. f_equal.
    apply IH. lia.
Qed.

Lemma removeFile_take_drop (index : nat) (prev : list File) :
  CreateHubModal.removeFile index prev = take index prev ++ drop (S index) prev.
Proof.
  unfold CreateHubModal.removeFile. rewrite (filter_index_removes index 0) by lia.
  by rewrite Nat.sub_0_r.
Qed.

(** X6: [removeFile] drops the file at the index and keeps the other files in
    their order; an index outside the list drops nothing. *)
Theorem removeFile_drops_one (index : nat) (prev : list File) :
  CreateHubModal.removeFile index prev = take index prev ++ drop (S index) prev ∧
  length (CreateHubModal.removeFile index prev) =
    (if (index <? length prev)%nat then length prev - 1 else length prev)%nat.
Proof.
  pose proof (removeFile_take_drop index prev) as Heq.
  split; [done|]. rewrite Heq, length_app, length_take, length_drop.
  destruct (index <? length prev)%nat eqn:E;
    [apply Nat.ltb_lt in E | apply Nat.ltb_ge in E]; lia.
Qed.

Lemma form_files_uploadData (formData : CreateHubModal.Form) (files : list File) :
  CreateHubModal.form_files (CreateHubModal.uploadData formData files) = files.
Proof.
  unfold CreateHubModal.uploadData, CreateHubModal.form_files. simpl.
  induction files as [|f files IH]; [done|]. simpl. by rewrite IH.
Qed.

(** X7: a submission of the dialog makes the dashboard issue exactly one request
    when the form is filled in (a name, and a link or at least one file) and
    none otherwise; the request goes to the endpoint of the active tab and
    carries the link data, or the name followed by every pending file in
    order. *)
Theorem submit_one_request (stringify : value → string) (activeTab : CreateHubModal.Tab)
    (formData : CreateHubModal.Form) (files : list File) (res : FetchResult) :
  dash_fetches (CreateHubModal.submit stringify activeTab formData files res) =
    (if CreateHubModal.filled_in activeTab formData files then
       [match activeTab with
        | CreateHubModal.sharepoint =>
            {| url := "/api/hubs/from-sharepoint"; method := "POST";
               payload := JsonBody (CreateHubModal.link_data formData) |}
        | CreateHubModal.upload =>
            {| url := "/api/hubs/from-upload"; method := "POST";
               payload := FormBody (CreateHubModal.uploadData formData files) |}
        end]
     else []) ∧
  CreateHubModal.form_files (CreateHubModal.uploadData formData files) = files ∧
  length (dash_toasts (CreateHubModal.submit stringify activeTab formData files res)) =
    (if CreateHubModal.filled_in activeTab formData files then 1 else 0)%nat.
Proof.
  split_and!; [| apply form_files_uploadData |].
  all: unfold CreateHubModal.submit, CreateHubModal.handleSubmit, CreateHubModal.filled_in.
  all: destruct activeTab, (nonempty (CreateHubModal.hub_name formData)); simpl; try done.
  all: repeat match goal with
       | |- context [if ?b then _ else _] => destruct b eqn:?; simpl; try done
       | |- context [match ?x with _ => _ end] => destruct x eqn:?; simpl; try done
       end.
Qed.

Lemma created_app (l1 l2 : list CreateHubModal.ModalEvent) :
  CreateHubModal.created (l1 ++ l2) = CreateHubModal.created l1 ++ CreateHubModal.created l2.
Proof. apply omap_app. Qed.

Lemma created_toasts (toasts : list Toast) :
  CreateHubModal.created (map CreateHubModal.ModalToast toasts) = [].
Proof. by induction toasts. Qed.

Lemma onDrop_within_limit (acceptedFiles rejectedFiles files : list File) :
  CreateHubModal.within_limit files →
  CreateHubModal.within_limit (onDrop acceptedFiles rejectedFiles files).1.
Proof.
  intros Hfiles. unfold onDrop.
  destruct (_ <? _)%nat; simpl; [|done].
  apply Forall_app. split; [done|].
  apply Forall_forall. intros f Hf. by apply list_elem_of_filter in Hf as [? _].
Qed.

Lemma act_within_limit (a : CreateHubModal.Action) (st : CreateHubModal.State) :
  CreateHubModal.within_limit (CreateHubModal.uploadedFiles st) →
  CreateHubModal.within_limit (CreateHubModal.uploadedFiles (CreateHubModal.act a st).1) ∧
  Forall CreateHubModal.data_within_limit (CreateHubModal.created (CreateHubModal.act a st).2).
Proof.
  intros Hst. unfold CreateHubModal.act.
  destruct (CreateHubModal.currentStep st), a; simpl; try by split.
  - split; [|unfold CreateHubModal.handleAdminAuth; by case_bool_decide].
    unfold CreateHubModal.handleAdminAuth. by case_bool_decide.
  - by destruct (CreateHubModal.activeTab st).
  - by destruct (CreateHubModal.activeTab st).
  - destruct (CreateHubModal.activeTab st); [by split|].
    destruct (onDrop acceptedFiles rejectedFiles (CreateHubModal.uploadedFiles st))
      as [files toasts] eqn:Hdrop.
    simpl. rewrite created_toasts. split; [|done].
    by apply (onDrop_within_limit acceptedFiles rejectedFiles) in Hst; rewrite Hdrop in Hst.
  - destruct (CreateHubModal.activeTab st); [by split|]. simpl. split; [|done].
    rewrite removeFile_take_drop.
    apply Forall_app. split; [by apply Forall_take | by apply Forall_drop].
  - split; [done|]. unfold CreateHubModal.handleSubmit.
    destruct (CreateHubModal.activeTab st); simpl.
    all: repeat match goal with
         | |- context [if ?b then _ else _] => destruct b eqn:?; simpl; try done
         end.
    all: destruct fulfilled; simpl; repeat constructor.
    all: unfold CreateHubModal.data_within_limit; by rewrite form_files_uploadData.
Qed.

Lemma run_within_limit (actions : list CreateHubModal.Action) (st : CreateHubModal.State) :
  CreateHubModal.within_limit (CreateHubModal.uploadedFiles st) →
  Forall CreateHubModal.data_within_limit
    (CreateHubModal.created (CreateHubModal.run actions st).2).
Proof.
  revert st. induction actions as [|a actions IH]; intros st Hst; [done|].
  simpl. destruct (act_within_limit a st Hst) as [Hst1 Hev1].
  destruct (CreateHubModal.act a st) as [st1 events1].
  specialize (IH st1 Hst1).
  destruct (CreateHubModal.run actions st1) as [st2 events2].
  simpl in *. rewrite created_app. by apply Forall_app.
Qed.

(** X8: whatever is typed, dropped, removed and submitted in the dialog, in
    whatever order: every [FormData] handed to [onCreate] holds only files of at
    most 50 MB. *)
Theorem upload_within_limit (actions : list CreateHubModal.Action) :
  Forall CreateHubModal.data_within_limit
    (CreateHubModal.created (CreateHubModal.run actions CreateHubModal.initial).2).
Proof. apply run_within_limit. by constructor. Qed.

Lemma act_locked (a : CreateHubModal.Action) (st : CreateHubModal.State) :
  CreateHubModal.wrong_passwords [a] = true →
  CreateHubModal.currentStep st = CreateHubModal.auth →
  CreateHubModal.adminPassword st ≠ "Priyojit" →
  CreateHubModal.currentStep (CreateHubModal.act a st).1 = CreateHubModal.auth ∧
  CreateHubModal.adminPassword (CreateHubModal.act a st).1 ≠ "Priyojit" ∧
  CreateHubModal.created (CreateHubModal.act a st).2 = [].
Proof.
  intros Ha Hstep Hpw. unfold CreateHubModal.act. rewrite Hstep.
  destruct a; simpl; try done.
  - simpl in Ha. rewrite andb_true_r in Ha. apply negb_true_iff, bool_decide_eq_false in Ha.
    done.
  - unfold CreateHubModal.handleAdminAuth. rewrite bool_decide_eq_false_2 by done. done.
Qed.

(** X9: the admin gate: as long as no text typed into the password field is the
    admin password, nothing the user does in the dialog calls [onCreate]. *)
Theorem creation_needs_password (actions : list CreateHubModal.Action) :
  CreateHubModal.wrong_passwords actions = true →
  CreateHubModal.created (CreateHubModal.run actions CreateHubModal.initial).2 = [].
Proof.
  assert (∀ st, CreateHubModal.wrong_passwords actions = true →
            CreateHubModal.currentStep st = CreateHubModal.auth →
            CreateHubModal.adminPassword st ≠ "Priyojit" →
            CreateHubModal.created (CreateHubModal.run actions st).2 = []) as Hgen.
  { induction actions as [|a actions IH]; intros st Hw Hstep Hpw; [done|].
    apply andb_true_iff in Hw as [Ha Hw]. fold (CreateHubModal.wrong_passwords actions) in Hw.
    destruct (act_locked a st) as (Hstep1 & Hpw1 & Hev1);
      [by unfold CreateHubModal.wrong_passwords; simpl; rewrite Ha | done | done |].
    simpl. destruct (CreateHubModal.act a st) as [st1 events1].
    specialize (IH st1 Hw Hstep1 Hpw1).
    destruct (CreateHubModal.run actions st1) as [st2 events2].
    simpl in *. by rewrite created_app, Hev1, IH. }
  intros Hw. by apply Hgen.
Qed.

(** ** The hub card *)

Lemma card_message_total (initial : string) (response : Response) :
  ∃ t, match error ← body response; card_error_message initial error with
       | Some errorMessage => [CardToast (ToastError errorMessage)]
       | None => [CardToast (ToastError (VStr "Operation failed"))]
       end = [CardToast (ToastError t)].
Proof. destruct (_ ≫= _); eauto. Qed.

(** X11: a click on the load button asks for an unload when the card shows the hub
    as loaded and for a load otherwise, shows exactly one toast and releases
    the busy flag; the loaded flag is flipped, and the hub list refreshed,
    exactly when the request went through. *)
Theorem handleLoadUnload_flips_on_success (hub : Hub) (res : FetchResult) (st : HubCard.State) :
  HubCard.card_fetches (HubCard.handleLoadUnload hub res st).2 =
    [POST ("/api/hubs/" +:+ hub_name hub +:+ "/" +:+
           (if HubCard.isLoaded st then "unload" else "load"))] ∧
  HubCard.isLoading (HubCard.handleLoadUnload hub res st).1 = false ∧
  HubCard.isLoaded (HubCard.handleLoadUnload hub res st).1 =
    xorb (HubCard.isLoaded st) (succeeded res) ∧
  length (card_toasts (HubCard.handleLoadUnload hub res st).2) = 1%nat ∧
  length (HubCard.card_updates (HubCard.handleLoadUnload hub res st).2) =
    (if succeeded res then 1 else 0)%nat.
Proof.
  unfold HubCard.handleLoadUnload, succeeded.
  destruct res as [|response]; simpl.
  { by rewrite xorb_false_r. }
  destruct (ok response); simpl.
  - destruct (body response ≫= λ result, get result "message") as [message|]; simpl.
    + rewrite ?bool_decide_eq_true_2 by eauto. by rewrite xorb_true_r.
    + rewrite ?bool_decide_eq_false_2 by (by intros [? ?]). by rewrite xorb_false_r.
  - destruct (body response ≫= _); simpl; by rewrite xorb_false_r.
Qed.

(** X12: a sync runs only on a hub linked to SharePoint; it then issues one
    request and shows exactly one toast, and the hub list is refreshed exactly
    when the request went through. *)
Theorem handleSync_feedback (hub : Hub) (res : FetchResult) :
  length (HubCard.card_fetches (handleSync hub res)) =
    (if sharepoint_linked hub then 1 else 0)%nat ∧
  length (card_toasts (handleSync hub res)) = (if sharepoint_linked hub then 1 else 0)%nat ∧
  length (HubCard.card_updates (handleSync hub res)) =
    (if sharepoint_linked hub && succeeded res then 1 else 0)%nat.
Proof.
  unfold handleSync, succeeded.
  destruct (sharepoint_linked hub); simpl; [|done].
  destruct res as [|response]; simpl; [done|].
  destruct (ok response); simpl.
  - destruct (body response ≫= λ result, get result "message") as [message|]; simpl.
    + by rewrite ?bool_decide_eq_true_2 by eauto.
    + by rewrite ?bool_decide_eq_false_2 by (by intros [? ?]).
  - by destruct (body response ≫= _).
Qed.

(** X13: a deletion that is not confirmed does nothing.  A confirmed one issues
    one DELETE request and shows exactly one toast; the hub list is refreshed
    exactly when the answer is ok, whatever its body. *)
Theorem handleDelete_feedback (hub : Hub) (confirmed : bool) (res : FetchResult) :
  HubCard.card_fetches (HubCard.handleDelete hub confirmed res) =
    (if confirmed
     then [{| url := "/api/hubs/" +:+ hub_name hub; method := "DELETE"; payload := NoBody |}]
     else []) ∧
  length (card_toasts (HubCard.handleDelete hub confirmed res)) =
    (if confirmed then 1 else 0)%nat ∧
  length (HubCard.card_updates (HubCard.handleDelete hub confirmed res)) =
    (if confirmed && answered_ok res then 1 else 0)%nat.
Proof.
  unfold HubCard.handleDelete, answered_ok.
  destruct confirmed; simpl; [|done].
  destruct res as [|response]; simpl; [done|].
  destruct (ok response); simpl; [done|].
  by destruct (body response ≫= _).
Qed.

(** X14: once the details of a hub have arrived, no click on the files button
    asks for them again: whatever the number of clicks, no request is issued,
    no toast shown, the details stay, and the panel is open or closed by the
    parity of the clicks. *)
Theorem files_panel_cached (hub : Hub) (results : list FetchResult) (st : HubCard.State) :
  truthy (HubCard.hubDetails st) = true →
  (HubCard.clicks hub results st).2 = [] ∧
  HubCard.hubDetails (HubCard.clicks hub results st).1 = HubCard.hubDetails st ∧
  HubCard.showFiles (HubCard.clicks hub results st).1 =
    xorb (HubCard.showFiles st) (Nat.odd (length results)).
Proof.
  revert st. induction results as [|res results IH]; intros st Hst.
  { simpl. by rewrite xorb_false_r. }
  cbn [HubCard.clicks].
  assert (HubCard.handleShowFiles hub res st =
            (HubCard.setShowFiles (negb (HubCard.showFiles st)) st, [])) as ->.
  { unfold HubCard.handleShowFiles. by rewrite Hst, andb_false_r. }
  destruct (IH (HubCard.setShowFiles (negb (HubCard.showFiles st)) st) Hst)
    as (Hev & Hdet & Hshow).
  destruct (HubCard.clicks hub results _) as [st2 events2]. simpl in *.
  split_and!; [done | done |].
  rewrite Hshow, Nat.odd_succ, <- Nat.negb_odd.
  by destruct (HubCard.showFiles st), (Nat.odd (length results)).
Qed.

(** X15: a click on the files button flips the panel whatever the request does:
    when the details cannot be fetched the panel opens all the same, with one
    error toast and no details, and the next opening click asks again. *)
Theorem files_panel_failed_fetch (hub : Hub) (res res' : FetchResult) (st : HubCard.State) :
  HubCard.showFiles st = false → truthy (HubCard.hubDetails st) = false →
  HubCard.delivered res = false →
  let st1 := (HubCard.handleShowFiles hub res st).1 in
  let st2 := (HubCard.handleShowFiles hub res' st1).1 in
  HubCard.showFiles st1 = true ∧
  HubCard.hubDetails st1 = HubCard.hubDetails st ∧
  HubCard.isLoadingDetails st1 = false ∧
  card_toasts (HubCard.handleShowFiles hub res st).2 =
    [ToastError (VStr "Failed to load hub details")] ∧
  (HubCard.handleShowFiles hub res' st1).2 = [] ∧
  HubCard.showFiles st2 = false ∧
  HubCard.card_fetches (HubCard.handleShowFiles hub res' st2).2 =
    [HubCard.GET ("/api/hubs/" +:+ hub_name hub)].
Proof.
  intros Hshow Hdet Hres.
  assert (HubCard.handleShowFiles hub res st =
            (HubCard.setShowFiles true (HubCard.setIsLoadingDetails false
               (HubCard.setIsLoadingDetails true st)),
             CardFetch (HubCard.GET ("/api/hubs/" +:+ hub_name hub)) :: HubCard.details_failed))
    as Hfirst.
  { unfold HubCard.handleShowFiles, HubCard.fetchHubDetails. rewrite Hshow, Hdet. simpl.
    destruct res as [|response]; simpl in *; [done|].
    destruct (ok response); simpl in *; [|done].
    destruct (body response); simpl in *; [|done].
    by rewrite ?bool_decide_eq_true_2 in Hres by eauto. }
  rewrite Hfirst. simpl.
  unfold HubCard.handleShowFiles, HubCard.fetchHubDetails. simpl. rewrite Hdet. simpl.
  split_and!; try done.
  destruct res' as [|response]; simpl; [done|].
  destruct (ok response); simpl; [|done]. by destruct (body response).
Qed.

Lemma includes_names (names : list string) (s : string) :
  includes (VArr (map VStr names)) s = Some (bool_decide (s ∈ names)).
Proof.
  simpl. f_equal. induction names as [|n names IH]; [done|]. simpl. rewrite IH.
  destruct (decide (n = s)) as [->|Hne].
  - rewrite bool_decide_eq_true_2 by done. simpl.
    by rewrite bool_decide_eq_true_2 by apply list_elem_of_here.
  - rewrite (bool_decide_eq_false_2 (n = s)) by done. simpl.
    apply bool_decide_ext. rewrite elem_of_cons.
    split; [by right | by intros [?|?]].
Qed.

(** X16: the check run on mount and after a sync: when the list of loaded hubs
    arrives, the card shows the hub as loaded exactly when its name is in the
    list; when the request fails, the flag stays as it was. *)
Theorem checkLoadedStatus_membership (hub : Hub) (response : Response)
    (fields : list (string * value)) (names : list string) (st : HubCard.State) :
  ok response = true → body response = Some (VObj fields) →
  assoc "loaded_hubs" fields = VArr (map VStr names) →
  HubCard.isLoaded (HubCard.checkLoadedStatus hub (Responded response) st).1 =
    bool_decide (hub_name hub ∈ names) ∧
  HubCard.isLoaded (HubCard.checkLoadedStatus hub NetworkError st).1 = HubCard.isLoaded st.
Proof.
  intros Hok Hbody Hlist. split; [|done].
  unfold HubCard.checkLoadedStatus. rewrite Hok, Hbody. cbn [mbind option_bind get fst].
  rewrite Hlist. cbn [mbind option_bind]. by rewrite includes_names.
Qed.

(** ** The dashboard statistics *)

Lemma foldl_file_count (hubsData : list Hub) (start : Z) :
  foldl (λ sum hub, sum + file_count hub) start hubsData =
  start + foldl (λ sum hub, sum + file_count hub) 0 hubsData.
Proof.
  revert start. induction hubsData as [|hub hubsData IH]; intros start; simpl; [lia|].
  rewrite (IH (start + file_count hub)), (IH (0 + file_count hub)). lia.
Qed.

(** X17: the counts of [calculateStats]: the hubs linked to SharePoint are never
    more than the hubs, the counts of a list made of two parts are the sums of
    the counts of the parts, and the loaded count is the one of the render the
    function belongs to. *)
Theorem calculateStats_counts (stats : DashboardPage.DashboardStats) (l1 l2 : list Hub) :
  let total := DashboardPage.calculateStats stats (l1 ++ l2) in
  let part1 := DashboardPage.calculateStats stats l1 in
  let part2 := DashboardPage.calculateStats stats l2 in
  0 ≤ DashboardPage.sharepointHubs total ≤ DashboardPage.totalHubs total ∧
  DashboardPage.totalHubs total =
    DashboardPage.totalHubs part1 + DashboardPage.totalHubs part2 ∧
  DashboardPage.totalFiles total =
    DashboardPage.totalFiles part1 + DashboardPage.totalFiles part2 ∧
  DashboardPage.sharepointHubs total =
    DashboardPage.sharepointHubs part1 + DashboardPage.sharepointHubs part2 ∧
  DashboardPage.loadedHubs total = DashboardPage.loadedHubs stats.
Proof.
  simpl. split_and!.
  - lia.
  - apply Nat2Z.inj_le, length_filter.
  - rewrite length_app. lia.
  - by rewrite foldl_app, foldl_file_count.
  - rewrite filter_app, length_app. lia.
  - done.
Qed.

(** X18: a refresh whose two requests are answered: the hub list and its counts
    are those of the answer, but the loaded count shown is the one of the
    answer only when the hub list arrived first; when it arrives last,
    [calculateStats] writes the loaded count of the first render, zero, over
    it.  The same holds for the two requests made on mount. *)
Theorem refresh_loaded_count (order : DashboardPage.Order) (hubsData : list Hub)
    (count : DashboardPage.Counted) (st : DashboardPage.State) :
  let refreshed :=
    (DashboardPage.handleRefresh order (Some (DashboardPage.HubList hubsData))
       (Some count) st).1 in
  let mounted :=
    (DashboardPage.mountEffect order (Some (DashboardPage.HubList hubsData))
       (Some count) st).1 in
  let shown := match order with
               | DashboardPage.hubs_first => count
               | DashboardPage.stats_first => DashboardPage.Number 0
               end in
  DashboardPage.hubs refreshed = DashboardPage.HubList hubsData ∧
  DashboardPage.totalHubs (DashboardPage.stats refreshed) = Z.of_nat (length hubsData) ∧
  DashboardPage.loadedHubs (DashboardPage.stats refreshed) = shown ∧
  DashboardPage.loadedHubs (DashboardPage.stats mounted) = shown ∧
  DashboardPage.loading mounted = false.
Proof. by destruct order. Qed.

(** X19: a refresh always ends with the success toast and the refreshing flag
    down, and never touches the loading flag.  When [fetchHubs] gets a list of
    hubs, the success toast is the only one.  In every other case the error
    toast of [fetchHubs] comes first and the counts of the hubs stay as they
    were; the hub list stays as it was when there was no answer to read, and is
    replaced by what the answer held in place of a list when there was one,
    since [setHubs] runs before [calculateStats] throws. *)
Theorem refresh_reports_success (order : DashboardPage.Order)
    (data : option DashboardPage.Hubs) (count : option DashboardPage.Counted)
    (st : DashboardPage.State) :
  let refreshed := DashboardPage.handleRefresh order data count st in
  last refreshed.2 = Some (ToastSuccess (VStr "Dashboard refreshed")) ∧
  DashboardPage.refreshing refreshed.1 = false ∧
  DashboardPage.loading refreshed.1 = DashboardPage.loading st ∧
  refreshed.2 =
    match data with
    | Some (DashboardPage.HubList _) => [ToastSuccess (VStr "Dashboard refreshed")]
    | _ => [ToastError (VStr "Failed to load hubs");
            ToastSuccess (VStr "Dashboard refreshed")]
    end ∧
  DashboardPage.hubs refreshed.1 =
    match data with
    | Some held => held
    | None => DashboardPage.hubs st
    end ∧
  match data with
  | Some (DashboardPage.HubList hubsData) =>
      DashboardPage.totalHubs (DashboardPage.stats refreshed.1) = Z.of_nat (length hubsData)
  | _ =>
      DashboardPage.totalHubs (DashboardPage.stats refreshed.1) =
        DashboardPage.totalHubs (DashboardPage.stats st) ∧
      DashboardPage.totalFiles (DashboardPage.stats refreshed.1) =
        DashboardPage.totalFiles (DashboardPage.stats st) ∧
      DashboardPage.sharepointHubs (DashboardPage.stats refreshed.1) =
        DashboardPage.sharepointHubs (DashboardPage.stats st)
  end.
Proof. by destruct order, data as [[]|], count. Qed.

(** ** The chat page *)

Section PageMore.
Variable env : Env.
Variable JSON_stringify : list Message → string.
Variable JSON_parse : string → option (list Message).

Ltac run :=
  cbv [mbind M_bind mret M_ret skip set toast spawn getItem setItem
       removeItem setTimeout fetch Date_now record put_state put_storage
       put_timers appendAssistant sendMessage_catch loadHub_catch unloadHub_catch
       sendMessage loadHub unloadHub switchHub clearChat since
       loadMessagesEffect saveMessagesEffect
       state localStorage trace timers fetches ticks fst snd].

Ltac smash :=
  repeat match goal with
  | |- context [match ?x with _ => _ end] =>
      lazymatch x with
      | context [match _ with _ => _ end] => fail
      | _ => destruct x eqn:?; run
      end
  end.

Ltac flatten := rewrite <- ?app_assoc; cbn [app]; rewrite ?drop_app_length.

(** *** The guard of [sendMessage] *)

Lemma strip_white_space (p rest : string) :
  p ∈ white_space → strip white_space (p +:+ rest) = strip white_space rest.
Proof.
  intros Hin. unfold white_space in Hin. cbn [map utf8 fold_right] in Hin.
  repeat (apply elem_of_cons in Hin as [->|Hin]; [reflexivity|]).
  by apply elem_of_nil in Hin.
Qed.

Lemma trim_start_blank (s : string) : blank s → trim_start s = EmptyString.
Proof.
  intros (spaces & Hall & ->). unfold trim_start.
  induction Hall as [|p spaces Hp _ IH]; [done|].
  cbn [foldr]. by rewrite (strip_white_space p _ Hp).
Qed.

Lemma trim_blank (s : string) : blank s → trim s = EmptyString.
Proof. intros Hs. unfold trim. by rewrite (trim_start_blank s Hs). Qed.

(** X20: a call of [sendMessage] with an input of white space only (any run of
    the characters [trim] strips, the space, the line ends and the no-break
    space among them), without a selected hub, or while a query is in flight
    does nothing at all, whatever its argument: no request, no message, no
    change of the state. *)
Theorem sendMessage_guard (r : ChatState) (rc : RetryCount) (w : World) :
  blank (input r) ∨ selectedHub r = EmptyString ∨ isLoading r = true →
  sendMessage env r rc w = ((), w).
Proof.
  intros Hguard. unfold sendMessage.
  assert (negb (nonempty (trim (input r))) || negb (nonempty (selectedHub r)) || isLoading r
          = true) as ->; [|done].
  destruct Hguard as [Hb|[Hs|Hl]].
  - by rewrite (trim_blank _ Hb).
  - rewrite Hs. simpl. by rewrite orb_true_r.
  - rewrite Hl. by rewrite orb_true_r.
Qed.

(** *** One call of [sendMessage], whatever its outcome *)

(** X21: every call that passes the guard, whatever its argument, issues
    exactly one request, empties the input field and ends with the loading flag
    down, whether the request is answered, refused or rejected, and whether a
    retry is scheduled or not; it touches neither the selection nor the
    storage. *)
Theorem sendMessage_releases (r : ChatState) (rc : RetryCount) (w : World) :
  can_send r →
  let w' := (sendMessage env r rc w).2 in
  isLoading (state w') = false ∧
  input (state w') = EmptyString ∧
  selectedHub (state w') = selectedHub (state w) ∧
  previousHub (state w') = previousHub (state w) ∧
  localStorage w' = localStorage w ∧
  requests (since w w') =
    [EvFetch (fetches w) (chat_request (trim (input r)) (selectedHub r))].
Proof.
  intros (Hin & Hsel & Hload) w'. subst w'.
  destruct w as [st ls tr tm nf nt].
  unfold sendMessage. rewrite Hin, Hsel, Hload. cbn [negb orb].
  run. smash.
  all: flatten.
  all: by split_and!.
Qed.

(** X22: a call whose argument is not below 2 (a retry count of 2 or more, or
    the click event the Send button passes) never schedules a retry: it leaves
    the timers alone and appends exactly one assistant message, the answer or
    the error text. *)
Theorem sendMessage_last_attempt (r : ChatState) (rc : RetryCount) (w : World) :
  can_send r → below rc 2 = false →
  let w' := (sendMessage env r rc w).2 in
  timers w' = timers w ∧
  scheduled (since w w') = [] ∧
  length (bubbles (since w w')) = 1%nat.
Proof.
  intros Hsend Hrc w'. subst w'.
  destruct (sendMessage_attempt env r rc w Hsend) as (tail & Htr & _ & _ & Hout).
  destruct Hout as [(Htm & Hsched & a & Hb & _)|(d & Hlt & _)]; [|congruence].
  rewrite (since_app _ _ _ Htr), scheduled_app, bubbles_app, Hsched, Hb.
  by split_and!.
Qed.

(** *** The user's message over a whole exchange *)

Lemma questions_app l1 l2 : questions (l1 ++ l2) = questions l1 ++ questions l2.
Proof. unfold questions. by rewrite appended_app, filter_app. Qed.

Lemma requests_app l1 l2 : requests (l1 ++ l2) = requests l1 ++ requests l2.
Proof. apply filter_app. Qed.

(** What a call adds after its opening holds no user message and no request,
    and at most one timer. *)
Lemma sendMessage_tail (r : ChatState) (rc : RetryCount) (w : World) :
  can_send r →
  let w' := (sendMessage env r rc w).2 in
  ∃ tail,
    trace w' = trace w ++ opening env r w ++ tail ∧
    questions tail = [] ∧ requests tail = [] ∧
    ((timers w' = timers w ∧ scheduled tail = []) ∨
     (∃ d, timers w' = timers w ++ [retry_timer d r (plus_one rc)] ∧ scheduled tail = [d])).
Proof.
  intros (Hin & Hsel & Hload) w'. subst w'.
  destruct w as [st ls tr tm nf nt].
  unfold sendMessage. rewrite Hin, Hsel, Hload. cbn [negb orb].
  unfold opening. run. smash.
  all: flatten.
  all: eexists; split; [reflexivity|]; split; [reflexivity|]; split; [reflexivity|].
  all: first [ by left | right; eexists; by split ].
Qed.

Lemma questions_opening (r : ChatState) (w : World) :
  questions (opening env r w) =
    [userMessage r (clock env (ticks w)) (clock env (S (ticks w)))] ∧
  requests (opening env r w) =
    [EvFetch (fetches w) (chat_request (content_text r) (selectedHub r))] ∧
  scheduled (opening env r w) = [].
Proof. done. Qed.

(** Calls and timer firings: every timer the exchange has scheduled has
    fired, and has then led to one more user message and one more request, or
    is still pending. *)
Lemma exchange_attempts (r : ChatState) (n : nat) :
  can_send r → ∀ rc w,
  let w' := (runRetries env (length (timers w)) n (sendMessage env r rc w).2).2 in
  ∃ new,
    trace w' = trace w ++ new ∧
    (length (questions new) + length (timers w') =
       S (length (scheduled new)) + length (timers w))%nat ∧
    length (requests new) = length (questions new) ∧
    Forall (λ m, content m = VStr (content_text r)) (questions new) ∧
    Forall (λ e, ∃ i, e = EvFetch i (chat_request (content_text r) (selectedHub r)))
      (requests new).
Proof.
  intros Hsend.
  assert (∀ rc w,
            let w' := (sendMessage env r rc w).2 in
            ∃ new,
              trace w' = trace w ++ new ∧
              (length (questions new) + length (timers w') =
                 S (length (scheduled new)) + length (timers w))%nat ∧
              length (requests new) = length (questions new) ∧
              Forall (λ m, content m = VStr (content_text r)) (questions new) ∧
              Forall (λ e, ∃ i, e = EvFetch i (chat_request (content_text r) (selectedHub r)))
                (requests new)) as Hone.
  { intros rc w.
    destruct (sendMessage_tail r rc w Hsend) as (tail & Htr & Hq & Hreq & Hout).
    destruct (questions_opening r w) as (Hqo & Hro & Hso).
    exists (opening env r w ++ tail).
    rewrite questions_app, requests_app, scheduled_app, Hq, Hreq, Hqo, Hro, Hso.
    split_and!; [done | | done | by repeat constructor | repeat constructor; by eexists].
    destruct Hout as [[-> ->]|(d & -> & ->)]; rewrite ?length_app; simpl; lia. }
  induction n as [|n IH]; intros rc w; [by apply Hone|].
  destruct (sendMessage_tail r rc w Hsend) as (tail & Htr & Hq & Hreq & Hout).
  destruct Hout as [[Htm Hsched]|(d & Htm & Hsched)].
  - rewrite runRetries_idle by (rewrite Htm; lia). by apply Hone.
  - rewrite (runRetries_fire _ _ _ _ _ Htm).
    set (w1 := fired (retry_timer d r (plus_one rc)) (timers w) (sendMessage env r rc w).2).
    assert (timers w1 = timers w) as Htm1 by done.
    pose proof (IH (plus_one rc) w1) as IH1. rewrite Htm1 in IH1.
    destruct IH1 as (new1 & Htr1 & Hcount & Hlen & Hall & Hreqs).
    destruct (questions_opening r w) as (Hqo & Hro & Hso).
    exists (opening env r w ++ tail ++ [EvTimerFired d (plus_one rc)] ++ new1).
    simpl retry_timer in *. simpl timer_render in *. simpl timer_retryCount in *.
    split_and!.
    + rewrite Htr1. unfold w1, fired. simpl. rewrite Htr. by rewrite <- !app_assoc.
    + rewrite !questions_app, !scheduled_app, !length_app, Hq, Hqo, Hso, Hsched. simpl.
      lia.
    + rewrite !questions_app, !requests_app, !length_app, Hq, Hqo, Hro, Hreq. simpl.
      lia.
    + rewrite !questions_app, Hq, Hqo. simpl. by constructor.
    + rewrite !requests_app, Hreq, Hro. simpl. constructor; [by eexists | done].
Qed.

(** X23: over a whole exchange, whatever the argument of the call that starts
    it and whatever timers are pending, the user's message is appended once for
    the call and once more for every retry: each retry re-runs [sendMessage] of
    the same render, which appends the message and issues the request again.
    So the transcript shows the question as many times as requests were made,
    one more than retries were scheduled, each time with the same text. *)
Theorem exchange_repeats_question (r : ChatState) (retryCount : RetryCount) (w : World) :
  can_send r →
  let new := since w (exchange env r retryCount w).2 in
  length (questions new) = S (length (scheduled new)) ∧
  length (requests new) = length (questions new) ∧
  Forall (λ m, content m = VStr (trim (input r))) (questions new) ∧
  Forall (λ e, ∃ i, e = EvFetch i (chat_request (trim (input r)) (selectedHub r)))
    (requests new).
Proof.
  intros Hsend new. subst new. rewrite exchange_unfold.
  destruct (retries_resolve env r 2 Hsend retryCount w ltac:(by destruct retryCount))
    as (rest & _ & Htm & _).
  destruct (exchange_attempts r 2 Hsend retryCount w)
    as (new & Htr & Hcount & Hlen & Hall & Hreqs).
  rewrite Htm in Hcount.
  rewrite (since_app _ _ _ Htr). split_and!; [lia | done | done | done].
Qed.

(** *** Loading and unloading a hub *)

(** X24: [loadHub] with a hub selected: one request, one toast, the busy flag down
    at the end.  When the request went through, the selection and the marker
    of the previous hub stay; on every failure (a refusal, a rejected request,
    a body that cannot be read) both are cleared.  The messages and the storage
    are never touched. *)
Theorem loadHub_outcome (r : ChatState) (w : World) :
  nonempty (selectedHub r) = true →
  let res := net env (fetches w) (load_request (selectedHub r)) in
  let w' := (loadHub env r w).2 in
  isHubOperationLoading (state w') = false ∧
  requests (since w w') = [EvFetch (fetches w) (load_request (selectedHub r))] ∧
  length (toasts (since w w')) = 1%nat ∧
  messages (state w') = messages (state w) ∧
  localStorage w' = localStorage w ∧
  selectedHub (state w') = (if succeeded res then selectedHub (state w) else EmptyString) ∧
  previousHub (state w') = (if succeeded res then previousHub (state w) else None).
Proof.
  intros Hsel res w'. subst res w'.
  destruct w as [st ls tr tm nf nt].
  unfold loadHub, succeeded. rewrite Hsel. cbn [negb].
  run. smash.
  all: flatten.
  all: rewrite ?bool_decide_eq_true_2 by eauto.
  all: rewrite ?bool_decide_eq_false_2 by (by intros [? ?]).
  all: by split_and!.
Qed.

(** X25: [unloadHub]: one request, one toast, the busy flag down at the end.  When
    the request went through and the hub unloaded is the one selected in the
    render of the call, the selection, the marker and the messages are cleared
    and the stored history of the hub is removed; in every other case, failures
    included, selection, marker, messages and storage stay as they were. *)
Theorem unloadHub_outcome (r : ChatState) (hubName : string) (w : World) :
  let res := net env (fetches w) (unload_request hubName) in
  let w' := (unloadHub env r hubName w).2 in
  isHubOperationLoading (state w') = false ∧
  requests (since w w') = [EvFetch (fetches w) (unload_request hubName)] ∧
  length (toasts (since w w')) = 1%nat ∧
  (if succeeded res && bool_decide (selectedHub r = hubName)
   then selectedHub (state w') = EmptyString ∧ previousHub (state w') = None ∧
        messages (state w') = [] ∧
        localStorage w' = delete (chat_key hubName) (localStorage w)
   else selectedHub (state w') = selectedHub (state w) ∧
        previousHub (state w') = previousHub (state w) ∧
        messages (state w') = messages (state w) ∧
        localStorage w' = localStorage w).
Proof.
  intros res w'. subst res w'.
  destruct w as [st ls tr tm nf nt].
  unfold unloadHub, succeeded.
  run. smash.
  all: flatten.
  all: rewrite ?bool_decide_eq_true_2 by eauto.
  all: rewrite ?bool_decide_eq_false_2 by (by intros [? ?]).
  all: by split_and!.
Qed.

(** X26: the hub effect settles: run again in the render of the state it has
    left (the selection may have changed under it), [switchHub] does nothing,
    whatever the requests of the first run did. *)
Theorem switchHub_settles (w : World) :
  let w' := (switchHub env (state w) w).2 in
  switchHub env (state w') w' = ((), w').
Proof.
  destruct w as [st ls tr tm nf nt]. simpl.
  assert (∀ w', (nonempty (selectedHub (state w')) = false ∨
                 previousHub (state w') = Some (selectedHub (state w'))) →
                switchHub env (state w') w' = ((), w')) as Hidle.
  { intros w' [Hs|Hp]; unfold switchHub.
    - by rewrite Hs.
    - rewrite bool_decide_eq_true_2 by done. by rewrite andb_false_r. }
  destruct (nonempty (selectedHub st) &&
            negb (bool_decide (previousHub st = Some (selectedHub st)))) eqn:Hguard.
  - apply andb_true_iff in Hguard as [Hsel Hprev].
    apply Hidle. unfold switchHub. rewrite Hsel, Hprev. cbn [andb].
    run. rewrite Hsel. cbn [negb]. smash.
    all: simpl; auto.
  - assert (∀ w0, state w0 = st → switchHub env st w0 = ((), w0)) as ->.
    { intros w0 _. unfold switchHub. by rewrite Hguard. }
    2: done.
    apply Hidle. simpl. apply andb_false_iff in Hguard as [Hs|Hp]; [by left|right].
    by apply negb_false_iff, bool_decide_eq_true in Hp.
Qed.

(** *** The stored history *)

(** X27: the save effect followed by the load effect for the same hub: what is
    shown is what [JSON.parse] makes of the text [JSON.stringify] made of the
    saved messages; when that text does not parse, the messages stay as they
    are. *)
Theorem saved_history_reloads (r r' : ChatState) (w : World) :
  nonempty (selectedHub r) = true → messages r ≠ [] →
  nonempty (JSON_stringify (messages r)) = true →
  selectedHub r' = selectedHub r →
  let w1 := (saveMessagesEffect JSON_stringify r w).2 in
  let w2 := (loadMessagesEffect JSON_parse r' w1).2 in
  localStorage w2 = <[chat_key (selectedHub r) := JSON_stringify (messages r)]> (localStorage w) ∧
  messages (state w2) =
    from_option id (messages (state w)) (JSON_parse (JSON_stringify (messages r))).
Proof.
  intros Hsel Hmsg Htext Hsame w1 w2. subst w1 w2.
  destruct w as [st ls tr tm nf nt].
  unfold saveMessagesEffect, loadMessagesEffect. rewrite Hsame, Hsel.
  destruct (messages r) as [|m l] eqn:Hl; [done|]. cbn [length Nat.ltb Nat.leb andb].
  run. rewrite lookup_insert_eq. cbn [item_truthy]. rewrite Htext.
  cbn [mbind option_bind].
  by destruct (JSON_parse (JSON_stringify (m :: l))).
Qed.

(** X28: selecting a hub that has no stored history while messages are shown: the
    load effect of that render finds nothing and leaves the messages on the
    screen, and the save effect of the same render stores them under the key
    of the newly selected hub. *)
Theorem history_follows_selection (r : ChatState) (w : World) :
  nonempty (selectedHub r) = true → messages r ≠ [] →
  localStorage w !! chat_key (selectedHub r) = None →
  let w' := ((loadMessagesEffect JSON_parse r;; saveMessagesEffect JSON_stringify r) w).2 in
  messages (state w') = messages (state w) ∧
  localStorage w' = <[chat_key (selectedHub r) := JSON_stringify (messages r)]> (localStorage w).
Proof.
  intros Hsel Hmsg Hnone w'. subst w'.
  destruct w as [st ls tr tm nf nt]. simpl in Hnone.
  unfold saveMessagesEffect, loadMessagesEffect. rewrite Hsel.
  destruct (messages r) as [|m l] eqn:Hl; [done|]. cbn [length Nat.ltb Nat.leb andb].
  run. rewrite Hnone. cbn [item_truthy]. done.
Qed.

(** *** The earlier chat page *)


(** X30: the earlier [loadHub] shows one toast and changes nothing: when the load
    fails, the hub stays selected. *)
Theorem earlier_loadHub_keeps_selection (r : ChatState) (w : World) :
  let w' := (EarlierChatPage.loadHub env r w).2 in
  state w' = state w ∧ localStorage w' = localStorage w ∧
  length (toasts (since w w')) = (if nonempty (selectedHub r) then 1 else 0)%nat.
Proof.
  destruct w as [st ls tr tm nf nt].
  unfold EarlierChatPage.loadHub. destruct (nonempty (selectedHub r)); cbn [negb].
  - run. smash. all: flatten. all: done.
  - run. by rewrite drop_all.
Qed.

End PageMore.
End MoreFacts.

(** ** The claims at sample inputs *)

#[local] Existing Instance ZNumber.

(** The scenario of the specification: two valid files and one of 60 MB. *)
Example onDrop_sample :
  onDrop Sample.batch (@nil File) [] =
    ([ {| name := "a.pdf"; size := 1024 |}; {| name := "b.docx"; size := 50 * 1024 * 1024 |} ],
     [ ToastError (VStr "1 file(s) too large (max 50MB each)");
       ToastSuccess (VStr "Added 2 file(s)") ]).
Proof. reflexivity. Qed.

Lemma formatFileSize_unit_in_bounds_witness :
  0 ≤ 1536 < 1024 ^ 4 ∧
  (1 ≤ 1536 →
   ∃ i unit,
     i = Z.to_nat (unit_index 1536 1024) ∧
     0 ≤ unit_index 1536 1024 < Z.of_nat (length sizes) ∧
     sizes !! i = Some unit ∧
     1024 ^ Z.of_nat i ≤ 1536 < 1024 ^ (Z.of_nat i + 1) ∧
     formatFileSize Sample.mantissa 1536
       = Sample.mantissa 1536 (1024 ^ Z.of_nat i) +:+ " " +:+ unit).
Proof.
  split; [lia|].
  exact (proj2 (formatFileSize_unit_in_bounds Sample.mantissa 1536 ltac:(lia))).
Defined.

Example formatFileSize_sample : formatFileSize Sample.mantissa 1536 = "1 KB".
Proof. reflexivity. Qed.

Lemma switchHub_unloads_before_loading_witness :
  previousHub Sample.render = Some "A" ∧ selectedHub Sample.render = "B" ∧
  switch_view (since (Sample.world Sample.render)
                 (switchHub Sample.online Sample.render (Sample.world Sample.render)).2) =
    [EvFetch 0 (unload_request "A");
     EvSettled 0 (net Sample.online 0 (unload_request "A"));
     EvFetch 1 (load_request "B");
     EvSettled 1 (net Sample.online 1 (load_request "B"));
     EvSet (SetPreviousHub (Some "B"))] ∧
  last (since (Sample.world Sample.render)
          (switchHub Sample.online Sample.render (Sample.world Sample.render)).2) =
    Some (EvSet (SetPreviousHub (Some "B"))).
Proof.
  split; [reflexivity|]. split; [reflexivity|].
  exact (switchHub_unloads_before_loading Sample.online Sample.render
           (Sample.world Sample.render) "A" "B" eq_refl eq_refl
           ltac:(discriminate) ltac:(discriminate) ltac:(discriminate)).
Defined.

(** C4: the load of hub B fails with status 503.  [loadHub] clears the
    selection and the marker, and then [switchHub] sets the marker to B: the
    switch ends with no hub selected and B marked as previously active. *)
Theorem failed_load_leaves_marker :
  net Sample.unavailable 0 (load_request "B") = Responded Sample.refusal ∧
  ok Sample.refusal = false ∧
  selectedHub (state (switchHub Sample.unavailable Sample.first_render
                        (Sample.world Sample.first_render)).2) = EmptyString ∧
  previousHub (state (switchHub Sample.unavailable Sample.first_render
                        (Sample.world Sample.first_render)).2) = Some "B".
Proof. vm_compute. done. Qed.

(** C5: the chat page is opened by a navigation, not a reload, 5 s after
    the last stamp, with no login flag: its guard clears the session and sends
    the browser to the login page, where the dashboard guard stamps the time and
    lets the page in. *)
Theorem chatGuard_logs_out_on_navigation :
  (chatGuard 5000 Sample.session).2 = Some "/login" ∧
  (chatGuard 5000 Sample.session).1 !! "isAuthenticated" = None ∧
  dashboardGuard 5000 (Some navigate) Sample.session
    = (<["lastPageLoad" := "5000"]> Sample.session, None).
Proof. vm_compute. done. Qed.

Lemma clearChat_removes_only_selected_witness :
  selectedHub Sample.render = "B" ∧
  localStorage (clearChat Sample.render Sample.stored).2 !! chat_key "B" = None ∧
  localStorage (clearChat Sample.render Sample.stored).2 !! chat_key "A" = Some "bye".
Proof.
  split; [reflexivity|].
  destruct (clearChat_removes_only_selected Sample.render Sample.stored "B"
              eq_refl ltac:(discriminate)) as (_ & Hgone & Hother & _).
  split; [exact Hgone|].
  rewrite (Hother "A" ltac:(discriminate)). reflexivity.
Defined.






Lemma stored_histories_nonempty_witness :
  histories_nonempty Sample.stringify (localStorage (Sample.world Sample.render)) ∧
  histories_nonempty Sample.stringify
    (localStorage (performAll Sample.online Sample.stringify (λ _, None)
                     [SaveMessages Sample.talking; SendMessage Sample.render (Count 0);
                      SaveMessages Sample.first_render]
                     (Sample.world Sample.render)).2).
Proof.
  assert (histories_nonempty Sample.stringify (localStorage (Sample.world Sample.render)))
    as Hstart by (intros hub v Hv; discriminate Hv).
  split; [exact Hstart|].
  exact (proj1 (stored_histories_nonempty Sample.online Sample.stringify (λ _, None)
                  _ (Sample.world Sample.render) Hstart)).
Defined.

(** What the storage holds after these actions: the one history saved. *)
Example stored_histories_sample :
  map_to_list (localStorage (performAll Sample.online Sample.stringify (λ _, None)
                     [SaveMessages Sample.talking; SendMessage Sample.render (Count 0);
                      SaveMessages Sample.first_render]
                     (Sample.world Sample.render)).2)
    = [("chat_B", "hello")].
Proof. vm_compute. reflexivity. Qed.

(** ** The further properties at sample inputs *)


(** A chat page mounted at time 1000 lets the user in; the dashboard
    reloaded four seconds later ends the session. *)
Lemma mountGuard_next_witness :
  (mountGuard ChatMount 1000 ∅).2 = None ∧
  mountGuard (DashboardMount (Some reload)) 5000 (mountGuard ChatMount 1000 ∅).1 =
    (clear_session (mountGuard ChatMount 1000 ∅).1, Some "/login").
Proof.
  split; [reflexivity|].
  exact (mountGuard_next ChatMount (DashboardMount (Some reload)) 1000 5000 ∅ eq_refl).
Defined.

Lemma login_then_mount_witness :
  LoginPage.accepted Sample.credentials = true ∧
  (mountGuard ChatMount 9000
     (LoginPage.handleSubmit to_string Sample.credentials Sample.session).1).2 = None.
Proof.
  split; [reflexivity|].
  exact (proj1 (login_then_mount to_string Sample.credentials ChatMount 9000
                  Sample.session eq_refl)).
Defined.

Lemma creation_needs_password_witness :
  CreateHubModal.wrong_passwords Sample.attempt = true ∧
  CreateHubModal.created (CreateHubModal.run Sample.attempt CreateHubModal.initial).2 = [].
Proof.
  split; [reflexivity|].
  exact (creation_needs_password Sample.attempt eq_refl).
Defined.

(** With the password, the same steps hand the pending files to [onCreate]:
    of the batch, the file of 60 MB was never added and the first file has been
    removed. *)
Example creation_sample :
  CreateHubModal.created (CreateHubModal.run Sample.creation CreateHubModal.initial).2 =
    [UploadData [("hub_name", FormText "Legal");
                 ("files", FormFile {| name := "b.docx"; size := 50 * 1024 * 1024 |})]].
Proof. reflexivity. Qed.

Lemma files_panel_cached_witness :
  truthy (HubCard.hubDetails Sample.informed) = true ∧
  (HubCard.clicks Sample.hub [NetworkError; NetworkError; NetworkError] Sample.informed).2 = [] ∧
  HubCard.showFiles
    (HubCard.clicks Sample.hub [NetworkError; NetworkError; NetworkError] Sample.informed).1 = true.
Proof.
  split; [reflexivity|].
  destruct (files_panel_cached Sample.hub [NetworkError; NetworkError; NetworkError]
              Sample.informed eq_refl) as (Hevents & _ & Hshow).
  split; [exact Hevents | exact Hshow].
Defined.

Lemma files_panel_failed_fetch_witness :
  HubCard.showFiles HubCard.initial = false ∧
  truthy (HubCard.hubDetails HubCard.initial) = false ∧
  HubCard.delivered NetworkError = false ∧
  HubCard.showFiles (HubCard.handleShowFiles Sample.hub NetworkError HubCard.initial).1 = true.
Proof.
  split; [reflexivity|]. split; [reflexivity|]. split; [reflexivity|].
  exact (proj1 (files_panel_failed_fetch Sample.hub NetworkError NetworkError HubCard.initial
                  eq_refl eq_refl eq_refl)).
Defined.

Lemma checkLoadedStatus_membership_witness :
  ok Sample.loaded_list = true ∧
  HubCard.isLoaded (HubCard.checkLoadedStatus Sample.hub (Responded Sample.loaded_list)
                      HubCard.initial).1 = true.
Proof.
  split; [reflexivity|].
  exact (proj1 (checkLoadedStatus_membership Sample.hub Sample.loaded_list _ ["HR"; "Legal"]
                  HubCard.initial eq_refl eq_refl eq_refl)).
Defined.

Lemma sendMessage_guard_witness :
  blank (input Sample.spaced) ∧
  sendMessage Sample.online Sample.spaced ClickEvent (Sample.world Sample.spaced) =
    ((), Sample.world Sample.spaced).
Proof.
  assert (blank (input Sample.spaced)) as Hblank.
  { exists [" "; utf8 [194; 160]%nat; utf8 [10]%nat]. split; [|reflexivity].
    repeat constructor; apply list_elem_of_In; vm_compute; tauto. }
  split; [exact Hblank|].
  exact (sendMessage_guard Sample.online Sample.spaced ClickEvent
           (Sample.world Sample.spaced) (or_introl Hblank)).
Defined.

Lemma sendMessage_releases_witness :
  can_send Sample.render ∧
  isLoading (state (sendMessage Sample.offline Sample.render (Count 0)
                      (Sample.world Sample.render)).2) = false.
Proof.
  assert (can_send Sample.render) as Hsend by (repeat split).
  split; [exact Hsend|].
  exact (proj1 (sendMessage_releases Sample.offline Sample.render (Count 0)
                  (Sample.world Sample.render) Hsend)).
Defined.

Lemma sendMessage_last_attempt_witness :
  can_send Sample.render ∧ below ClickEvent 2 = false ∧
  scheduled (since (Sample.world Sample.render)
               (sendMessage Sample.offline Sample.render ClickEvent
                  (Sample.world Sample.render)).2) = [].
Proof.
  assert (can_send Sample.render) as Hsend by (repeat split).
  split; [exact Hsend|]. split; [reflexivity|].
  exact (proj1 (proj2 (sendMessage_last_attempt Sample.offline Sample.render ClickEvent
                         (Sample.world Sample.render) Hsend eq_refl))).
Defined.

Lemma exchange_repeats_question_witness :
  can_send Sample.render ∧
  length (questions (since (Sample.world Sample.render)
                       (exchange Sample.offline Sample.render (Count 0)
                          (Sample.world Sample.render)).2)) =
    S (length (scheduled (since (Sample.world Sample.render)
                 (exchange Sample.offline Sample.render (Count 0)
                    (Sample.world Sample.render)).2))).
Proof.
  assert (can_send Sample.render) as Hsend by (repeat split).
  split; [exact Hsend|].
  exact (proj1 (exchange_repeats_question Sample.offline Sample.render (Count 0)
                  (Sample.world Sample.render) Hsend)).
Defined.

(** With every request rejected, the question is shown three times. *)
Example exchange_repeats_question_sample :
  map content (questions (since (Sample.world Sample.render)
                 (exchange Sample.offline Sample.render (Count 0)
                    (Sample.world Sample.render)).2)) =
    [VStr "hello"; VStr "hello"; VStr "hello"].
Proof. vm_compute. reflexivity. Qed.

Lemma loadHub_outcome_witness :
  nonempty (selectedHub Sample.first_render) = true ∧
  selectedHub (state (loadHub Sample.unavailable Sample.first_render
                        (Sample.world Sample.first_render)).2) = EmptyString ∧
  previousHub (state (loadHub Sample.unavailable Sample.first_render
                        (Sample.world Sample.first_render)).2) = None.
Proof.
  split; [reflexivity|].
  destruct (loadHub_outcome Sample.unavailable Sample.first_render
              (Sample.world Sample.first_render) eq_refl) as (_ & _ & _ & _ & _ & Hsel & Hprev).
  split; [exact Hsel | exact Hprev].
Defined.

Lemma saved_history_reloads_witness :
  nonempty (selectedHub Sample.talking) = true ∧ messages Sample.talking ≠ [] ∧
  nonempty (Sample.stringify (messages Sample.talking)) = true ∧
  messages (state (loadMessagesEffect Sample.parse Sample.talking
                     (saveMessagesEffect Sample.stringify Sample.talking
                        (Sample.world Sample.render)).2).2) = messages Sample.talking.
Proof.
  split; [reflexivity|]. split; [discriminate|]. split; [reflexivity|].
  exact (proj2 (saved_history_reloads Sample.stringify Sample.parse Sample.talking
                  Sample.talking (Sample.world Sample.render)
                  eq_refl ltac:(discriminate) eq_refl eq_refl)).
Defined.

(** Hub B is selected while one message is on the screen and nothing is
    stored: the message ends up stored as the history of B. *)
Lemma history_follows_selection_witness :
  nonempty (selectedHub Sample.talking) = true ∧ messages Sample.talking ≠ [] ∧
  localStorage (Sample.world Sample.render) !! chat_key (selectedHub Sample.talking) = None ∧
  localStorage ((loadMessagesEffect Sample.parse Sample.talking;;
                 saveMessagesEffect Sample.stringify Sample.talking)
                  (Sample.world Sample.render)).2 =
    <[chat_key "B" := "hello"]> ∅.
Proof.
  split; [reflexivity|]. split; [discriminate|]. split; [reflexivity|].
  exact (proj2 (history_follows_selection Sample.stringify Sample.parse Sample.talking
                  (Sample.world Sample.render) eq_refl ltac:(discriminate) eq_refl)).
Defined.

